(** * hw2_1.py: employee table loader, team hierarchy and salary report

    A shallow embedding of [src/hw2_1.py].  The program reads a
    [;]-delimited file into a column dictionary ([get_data]), groups
    divisions by department ([get_teams]), aggregates salaries by
    department ([get_reports]) and writes the report back as rows
    ([make_report_csv]).

    Python values are modelled as follows.
    - [str] is [string] (the UTF-8 bytes; byte-wise lexicographic order
      coincides with Python's code point order).
    - [int] is [Z]; [float] is [pyfloat], a finite binary64 number.
    - [dict] is an association list in insertion order ([dict V]).
    - [set] of strings is [gset string].
    - a raised exception is the [Raise] case of [result].

    Files are seen at the level of their records: what [csv.reader]
    yields when reading and what is handed to [csv.writer] when
    writing.  The console of [main] and of the printing functions is
    the list of lines typed and the list of texts printed. *)

From Stdlib Require Import ZArith Lia Ascii String.
From stdpp Require Import base list strings gmap sorting pretty.

(** ** Exceptions and results *)

Inductive value_error : Type :=
| InvalidLiteral (literal : string)   (* int(): the text is no literal, or has too many digits *)
| EmptySequence.                      (* min()/max(): the argument is an empty sequence *)

Inductive exn : Type :=
| FileNotFoundError (msg : string)
| StopIteration
| IndexError
| KeyError (key : string)
| ValueError (why : value_error)
| ZeroDivisionError
| OverflowError.

Inductive result (A : Type) : Type :=
| Ok (a : A)
| Raise (e : exn).
Arguments Ok {A} a.
Arguments Raise {A} e.

Global Instance result_ret : MRet result := λ A a, Ok a.
Global Instance result_bind : MBind result := λ A B f m,
  match m with
  | Ok a => f a
  | Raise e => Raise e
  end.

(** A [for] loop whose body may raise: the state is threaded through the
    items in order and the first exception ends the loop. *)
Fixpoint for_each {A S : Type} (body : S → A → result S) (s : S) (items : list A)
  : result S :=
  match items with
  | [] => Ok s
  | x :: items' => s' ← body s x; for_each body s' items'
  end.

(** ** Lists and dictionaries *)

(** [l[i]] with Python's negative indices. *)
Definition list_getitem {A : Type} (l : list A) (i : Z) : result A :=
  let j := if (i <? 0)%Z then (i + Z.of_nat (length l))%Z else i in
  if (j <? 0)%Z then Raise IndexError
  else match l !! Z.to_nat j with
       | Some x => Ok x
       | None => Raise IndexError
       end.

Definition enumerate {A : Type} (l : list A) : list (nat * A) :=
  zip (seq 0 (length l)) l.

(** An insertion-ordered dictionary with string keys. *)
Abbreviation dict V := (list (string * V)) (only parsing).

Definition dict_keys {V : Type} (d : dict V) : list string := d.*1.

Fixpoint dict_get {V : Type} (d : dict V) (k : string) : result V :=
  match d with
  | [] => Raise (KeyError k)
  | (k', v) :: d' => if decide (k' = k) then Ok v else dict_get d' k
  end.

(** [d[k] = v]: an existing key keeps its position, a new key goes last. *)
Fixpoint dict_set {V : Type} (d : dict V) (k : string) (v : V) : dict V :=
  match d with
  | [] => [(k, v)]
  | (k', v') :: d' =>
      if decide (k' = k) then (k', v) :: d' else (k', v') :: dict_set d' k v
  end.

(** [{key: init for key in keys}] *)
Definition dict_fromkeys {V : Type} (keys : list string) (init : V) : dict V :=
  foldl (λ d key, dict_set d key init) [] keys.

(** ** Tabular Loader: [get_data] *)

(** The records that [csv.reader(open(path), delimiter=';')] yields for
    the file stored at [path]; [None] when no file is stored there, in
    which case [open] raises [FileNotFoundError]. *)
Definition filesystem : Type := string → option (list (list string)).

Definition endswith (s suffix : string) : bool :=
  let n := String.length s in
  let k := String.length suffix in
  (k <=? n)%nat && String.eqb (substring (n - k) k s) suffix.

Definition csv_path (file : string) : string :=
  if endswith file ".csv" then file else file +:+ ".csv".

Definition not_found_message (file : string) : string :=
  "Нет файла с именем " +:+ file +:+ " в локальной директории".

(** [content[tag].append(row[i])] *)
Definition append_cell (row : list string) (content : dict (list string))
    (it : nat * string) : result (dict (list string)) :=
  let '(i, tag) := it in
  column ← dict_get content tag;
  cell ← list_getitem row (Z.of_nat i);
  Ok (dict_set content tag (column ++ [cell])).

Definition append_row (tags : list string) (content : dict (list string))
    (row : list string) : result (dict (list string)) :=
  for_each (append_cell row) content (enumerate tags).

Definition get_data (fs : filesystem) (file : string) : result (dict (list string)) :=
  let file := csv_path file in
  match fs file with
  | None => Raise (FileNotFoundError (not_found_message file))
  | Some reader =>
      match reader with
      | [] => Raise StopIteration
      | tags :: rows =>
          let content := dict_fromkeys tags [] in
          for_each (append_row tags) content rows
      end
  end.

Local Open Scope Z_scope.

(** ** Characters

    A [str] is held as its UTF-8 bytes.  [int()] and [str.strip()] look
    at characters, so the bytes are decoded first. *)

Definition byte_value (b : ascii) : Z := Z.of_N (N_of_ascii b).

Definition continuation (b : ascii) : option Z :=
  let n := byte_value b in
  if (128 <=? n) && (n <=? 191) then Some (n - 128) else None.

(** The code point that the bytes of [s] start with and the number of
    bytes it takes; [None] when [s] does not start with the UTF-8
    encoding of a character. *)
Definition utf8_head (s : string) : option (Z * nat) :=
  match s with
  | EmptyString => None
  | String b0 s1 =>
      let n0 := byte_value b0 in
      if n0 <? 128 then Some (n0, 1%nat)
      else
        match s1 with
        | EmptyString => None
        | String b1 s2 =>
            n1 ← continuation b1;
            if (192 <=? n0) && (n0 <? 224) then
              let cp := 64 * (n0 - 192) + n1 in
              if 128 <=? cp then Some (cp, 2%nat) else None
            else
              match s2 with
              | EmptyString => None
              | String b2 s3 =>
                  n2 ← continuation b2;
                  if (224 <=? n0) && (n0 <? 240) then
                    let cp := 4096 * (n0 - 224) + 64 * n1 + n2 in
                    if (2048 <=? cp) && negb ((55296 <=? cp) && (cp <=? 57343))
                    then Some (cp, 3%nat) else None
                  else
                    match s3 with
                    | EmptyString => None
                    | String b3 _ =>
                        n3 ← continuation b3;
                        if (240 <=? n0) && (n0 <? 248) then
                          let cp := 262144 * (n0 - 240) + 4096 * n1 + 64 * n2 + n3 in
                          if (65536 <=? cp) && (cp <=? 1114111)
                          then Some (cp, 4%nat) else None
                        else None
                    end
              end
        end
  end.

(** The characters of [s] from its byte [skip] on, each with its code
    point and its bytes.  A byte that starts no character stands for
    itself with code point [-1]: it is no character of any [str]. *)
Fixpoint chars_from (skip : nat) (s : string) : list (Z * string) :=
  match s with
  | EmptyString => []
  | String b s' =>
      match skip with
      | S skip' => chars_from skip' s'
      | O =>
          match utf8_head s with
          | Some (cp, n) => (cp, substring 0 n s) :: chars_from (n - 1) s'
          | None => (-1, String b EmptyString) :: chars_from 0 s'
          end
      end
  end.

Definition chars (s : string) : list (Z * string) := chars_from 0 s.

(** [str.isspace] of one character: the characters with bidirectional
    type WS, B or S or of category Zs. *)
Definition unicode_space (cp : Z) : bool :=
  (9 <=? cp) && (cp <=? 13) || (28 <=? cp) && (cp <=? 32) ||
  (cp =? 133) || (cp =? 160) || (cp =? 5760) ||
  (8192 <=? cp) && (cp <=? 8202) || (cp =? 8232) || (cp =? 8233) ||
  (cp =? 8239) || (cp =? 8287) || (cp =? 12288).

(** The code points of the digits zero of the decimal digit characters
    (category Nd, Unicode 14.0.0 as in CPython 3.11); each is followed
    by the digits one to nine of its script. *)
Definition decimal_zeros : list Z :=
  [ 48; 1632; 1776; 1984; 2406; 2534; 2662; 2790; 2918; 3046; 3174;
    3302; 3430; 3558; 3664; 3792; 3872; 4160; 4240; 6112; 6160; 6470;
    6608; 6784; 6800; 6992; 7088; 7232; 7248; 42528; 43216; 43264;
    43472; 43504; 43600; 44016; 65296; 66720; 68912; 69734; 69872;
    69942; 70096; 70384; 70736; 70864; 71248; 71360; 71472; 71904;
    72016; 72784; 73040; 73120; 92768; 92864; 93008; 120782; 120792;
    120802; 120812; 120822; 123200; 123632; 125264; 130032 ].

(** The value of a character as a decimal digit. *)
Definition unicode_decimal (cp : Z) : option Z :=
  (λ zero, cp - zero) <$>
    find (λ zero, (zero <=? cp) && (cp <=? zero + 9)) decimal_zeros.

(** ** Numbers: [int()], integer true division and [round] *)

(** [int(s)] first brings the text to ASCII: a character below 127 is
    kept, a whitespace character becomes a space, a decimal digit of
    any script becomes its ASCII digit, and anything else becomes a
    question mark, which no literal contains. *)
Definition to_ascii (cp : Z) : Z :=
  if (0 <=? cp) && (cp <? 127) then cp
  else if unicode_space cp then 32
  else match unicode_decimal cp with
       | Some d => 48 + d
       | None => 63
       end.

(** Whitespace that the parser of the ASCII text skips around a
    literal: tab to carriage return, and the space. *)
Definition is_space (c : Z) : bool :=
  (9 <=? c) && (c <=? 13) || (c =? 32).

Definition digit_of (c : Z) : option Z :=
  if (48 <=? c) && (c <=? 57) then Some (c - 48) else None.

Fixpoint lstrip (s : list Z) : list Z :=
  match s with
  | c :: s' => if is_space c then lstrip s' else s
  | [] => s
  end.

(** [sys.int_max_str_digits]: a literal of more digits is rejected with
    a [ValueError].  The program leaves it at its default. *)
Definition int_max_str_digits : Z := 4300.

(** The digits of a base 10 literal, with single underscores allowed
    between digits, followed by optional whitespace.  [after_digit] tells
    whether the previous character was a digit, [digits] counts the
    digits read. *)
Fixpoint int_digits (acc digits : Z) (after_digit : bool) (s : list Z) : option Z :=
  match s with
  | [] =>
      if after_digit && (digits <=? int_max_str_digits) then Some acc else None
  | c :: s' =>
      match digit_of c with
      | Some d => int_digits (10 * acc + d) (digits + 1) true s'
      | None =>
          if c =? 95 then
            if after_digit then int_digits acc digits false s' else None
          else if after_digit && (digits <=? int_max_str_digits) && forallb is_space s
          then Some acc
          else None
      end
  end.

(** The value of [int(s)], [None] when [int] raises [ValueError]:
    optional whitespace, an optional sign, digits, optional
    whitespace. *)
Definition int_literal (s : string) : option Z :=
  match lstrip (to_ascii <$> (chars s).*1) with
  | 43 :: s' => int_digits 0 0 false s'
  | 45 :: s' => Z.opp <$> int_digits 0 0 false s'
  | s' => int_digits 0 0 false s'
  end.

(** [int(s)] *)
Definition int (s : string) : result Z :=
  match int_literal s with
  | Some z => Ok z
  | None => Raise (ValueError (InvalidLiteral s))
  end.

(** A finite binary64 float [(-1)^f_neg * f_mant * 2^f_exp], with
    [0 <= f_mant < 2^53] and [-1074 <= f_exp <= 971]. *)
Record pyfloat : Type := PyFloat { f_neg : bool; f_mant : Z; f_exp : Z }.

(** Every finite float is a whole number of units of [2^-1074]. *)
Definition float_magnitude (x : pyfloat) : Z := f_mant x * 2 ^ (f_exp x + 1074).

Definition float_units (x : pyfloat) : Z :=
  if f_neg x then - float_magnitude x else float_magnitude x.

(** Python compares an [int] with a [float] by their exact values. *)
Definition int_le_float (z : Z) (x : pyfloat) : Prop := z * 2 ^ 1074 ≤ float_units x.
Definition float_le_int (x : pyfloat) (z : Z) : Prop := float_units x ≤ z * 2 ^ 1074.
Definition float_eq_int (x : pyfloat) (z : Z) : Prop := float_units x = z * 2 ^ 1074.

(** [n / d] rounded to the nearest integer, ties to even ([0 <= n], [0 < d]). *)
Definition round_half_even (n d : Z) : Z :=
  let q := n / d in
  let r := n mod d in
  if 2 * r <? d then q
  else if d <? 2 * r then q + 1
  else if Z.even q then q else q + 1.

(** The float nearest to [a / b], ties to even ([0 <= a], [0 < b]), with
    the given sign; [OverflowError] beyond the largest finite float. *)
Definition nearest_float (neg : bool) (a b : Z) : result pyfloat :=
  let units := a * 2 ^ 1074 in
  let e := Z.max 0 (Z.log2 (units / b) - 52) in
  let m := round_half_even units (b * 2 ^ e) in
  let '(m, e) := if m =? 2 ^ 53 then (2 ^ 52, e + 1) else (m, e) in
  if 971 <? e - 1074 then Raise OverflowError
  else Ok (PyFloat neg m (e - 1074)).

(** [a / b] on integers: the correctly rounded quotient. *)
Definition py_truediv (a b : Z) : result pyfloat :=
  if b =? 0 then Raise ZeroDivisionError
  else nearest_float (xorb (a <? 0) (b <? 0)) (Z.abs a) (Z.abs b).

(** [round(x, ndigits)] for [0 <= ndigits]: the exact value of [x] is
    rounded to [ndigits] decimals, ties to even, and the float nearest
    to that decimal is returned. *)
Definition py_round (x : pyfloat) (ndigits : Z) : result pyfloat :=
  if 323 <? ndigits then Ok x
  else
    let scaled := float_magnitude x * 10 ^ ndigits in
    nearest_float (f_neg x) (round_half_even scaled (2 ^ 1074)) (10 ^ ndigits).

(** [min(l)], [max(l)] and [sum(l)] on integers *)
Definition py_min (l : list Z) : result Z :=
  match l with
  | [] => Raise (ValueError EmptySequence)
  | x :: l' => Ok (foldl Z.min x l')
  end.

Definition py_max (l : list Z) : result Z :=
  match l with
  | [] => Raise (ValueError EmptySequence)
  | x :: l' => Ok (foldl Z.max x l')
  end.

Definition py_sum (l : list Z) : Z := foldl Z.add 0 l.

Local Close Scope Z_scope.

(** ** Schema Resolver: columns by position *)

(** [content[list(content.keys())[i]]] *)
Definition column_at (content : dict (list string)) (i : Z) : result (list string) :=
  key ← list_getitem (dict_keys content) i;
  dict_get content key.

(** [sorted(set(l))] *)
Definition sorted_set (l : list string) : list string :=
  merge_sort String.le (elements (list_to_set l : gset string)).

(** ** Hierarchy Builder: [get_teams] *)

(** [out[department].add(division)] *)
Definition add_division (out : dict (gset string)) (it : string * string)
  : result (dict (gset string)) :=
  let '(department, division) := it in
  teams ← dict_get out department;
  Ok (dict_set out department (teams ∪ {[division]})).

Definition teams_of_table (content : dict (list string)) : result (dict (gset string)) :=
  departments ← column_at content 1;
  departments' ← column_at content 1;
  let departments_unique := sorted_set departments' in
  divisions ← column_at content 2;
  let out := dict_fromkeys departments_unique (∅ : gset string) in
  for_each add_division out (zip departments divisions).

Definition get_teams (fs : filesystem) (file : string) : result (dict (gset string)) :=
  content ← get_data fs file;
  teams_of_table content.

(** ** Report Aggregator: [get_reports] *)

Record department_report : Type := DepartmentReport {
  min_salary : Z;
  max_salary : Z;
  head_count : Z;
  mean_salary : pyfloat
}.

(** [salaries_by_departments[department].append(int(salary))] *)
Definition add_salary (acc : dict (list Z)) (it : string * string)
  : result (dict (list Z)) :=
  let '(department, salary) := it in
  salaries ← dict_get acc department;
  value ← int salary;
  Ok (dict_set acc department (salaries ++ [value])).

(** The body of the second loop, up to the record. *)
Definition department_record (salaries : list Z) : result department_report :=
  min_salary ← py_min salaries;
  max_salary ← py_max salaries;
  let head_count := Z.of_nat (length salaries) in
  mean ← py_truediv (py_sum salaries) head_count;
  mean_salary ← py_round mean 2;
  Ok (DepartmentReport min_salary max_salary head_count mean_salary).

Definition add_record (report : dict department_report) (it : string * list Z)
  : result (dict department_report) :=
  let '(department, salaries) := it in
  record ← department_record salaries;
  Ok (dict_set report department record).

(** The first loop of [get_reports]: the salaries grouped by department. *)
Definition salaries_by_departments (content : dict (list string))
  : result (dict (list Z)) :=
  departments ← column_at content 1;
  departments' ← column_at content 1;
  let departments_unique := sorted_set departments' in
  salaries ← column_at content (-1);
  let salaries_by_departments := dict_fromkeys departments_unique ([] : list Z) in
  for_each add_salary salaries_by_departments (zip departments salaries).

Definition reports_of_table (content : dict (list string))
  : result (dict department_report) :=
  grouped ← salaries_by_departments content;
  for_each add_record [] grouped.

Definition get_reports (fs : filesystem) (file : string)
  : result (dict department_report) :=
  content ← get_data fs file;
  reports_of_table content.

(** ** Export: [make_report_csv] *)

(** A value handed to [csv.writer.writerow]. *)
Inductive cell : Type :=
| CStr (s : string)
| CInt (z : Z)
| CFloat (x : pyfloat).

Definition report_header : list cell :=
  [CStr "Департамент"; CStr "Минимальная зарплата"; CStr "Максимальная зарплата";
   CStr "Численность"; CStr "Средняя запрлата"].

(** [list(data.values())]: the record's values in the order its keys were set. *)
Definition record_values (data : department_report) : list cell :=
  [CInt (min_salary data); CInt (max_salary data);
   CInt (head_count data); CFloat (mean_salary data)].

Definition writerow (written : list (list cell)) (row : list cell) : list (list cell) :=
  written ++ [row].

(** [s.strip()]: the text without the whitespace characters it starts
    and ends with. *)
Fixpoint lstrip_chars (s : list (Z * string)) : list (Z * string) :=
  match s with
  | c :: s' => if unicode_space c.1 then lstrip_chars s' else s
  | [] => s
  end.

Definition strip (s : string) : string :=
  String.concat EmptyString
    ((rev (lstrip_chars (rev (lstrip_chars (chars s))))).*2).

(** [make_report_csv(report)] where [answer] is the line typed at the
    prompt: the name of the file opened for writing and the rows written
    to it, in order. *)
Definition make_report_csv (report : dict department_report) (answer : string)
  : string * list (list cell) :=
  let report_file_name := csv_path (strip answer) in
  let written := writerow [] report_header in
  (report_file_name,
   foldl (λ written '(department, data),
            writerow written ([CStr department] ++ record_values data))
         written report).

(** ** Console: [input], [print] and the file written by the export *)

(** The lines still to be typed, the texts written to the standard
    output so far, and the files written so far with their rows. *)
Record console : Type := Console {
  stdin : list string;
  stdout : list string;
  written : list (string * list (list cell))
}.

(** How a run ends: normally, with an uncaught exception, or with the
    [EOFError] of [input] when no line is left. *)
Inductive ending : Type :=
| Returned
| Uncaught (e : exn)
| EndOfInput.

Definition newline : string := String "010"%char "".
Definition double_quote : string := String "034"%char "".

(** [print(text)] *)
Definition print (text : string) (c : console) : console :=
  Console (stdin c) (stdout c ++ [text +:+ newline]) (written c).

(** [input(prompt)]: the prompt is written, then a line is read. *)
Definition input (prompt : string) (c : console) : option string * console :=
  let c := Console (stdin c) (stdout c ++ [prompt]) (written c) in
  match stdin c with
  | [] => (None, c)
  | line :: rest => (Some line, Console rest (stdout c) (written c))
  end.

(** ** Presentation: [print_teams] and [print_report] *)

Section presentation.

(** [list(s)]: the elements of a set in its iteration order, which the
    language leaves open. *)
Variable set_list : gset string → list string.

(** The text of a float in an f-string. *)
Variable float_str : pyfloat → string.

(** The body of the loop of [print_teams]; [data[department]] is the
    value stored under the key of the iteration. *)
Definition print_department (c : console) (it : string * gset string) : console :=
  let '(department, teams) := it in
  let c := print ("Подразделение " +:+ department +:+ " состоит из "
                  +:+ pretty (size teams) +:+ " команд:") c in
  let c := print ("----" +:+ String.concat (newline +:+ "----") (set_list teams)) c in
  print "" c.

Definition print_teams (data : dict (gset string)) (c : console) : console :=
  foldl print_department c data.

(** The body of the loop of [print_report]. *)
Definition print_record (c : console) (it : string * department_report) : console :=
  let '(department, data) := it in
  let c := print ("Департамент: " +:+ department +:+ " состоит из "
                  +:+ pretty (head_count data) +:+ " человек") c in
  let c := print ("--Вилка " +:+ pretty (min_salary data) +:+ "-"
                  +:+ pretty (max_salary data) +:+ " рублей в месяц") c in
  let c := print ("--Cредняя зарплата: " +:+ float_str (mean_salary data)
                  +:+ " рублей в месяц") c in
  print "" c.

Definition print_report (report : dict department_report) (c : console) : console :=
  foldl print_record c report.

(** ** The export and the menu: [make_report_csv] and [main] *)

(** [make_report_csv(report)] on the console: the name is asked for,
    then the file is written. *)
Definition make_report_csv_on (report : dict department_report) (c : console)
  : ending * console :=
  match input "Введите имя выходного файла: " c with
  | (None, c) => (EndOfInput, c)
  | (Some answer, c) =>
      (Returned,
       Console (stdin c) (stdout c) (written c ++ [make_report_csv report answer]))
  end.

Definition menu : string :=
  "Выберите пункт меню:
    1: Вывести в понятном виде иерархию команд, т.е. департамент и все команды, которые входят в него
    2: Вывести сводный отчёт по департаментам: название, численность, "
  +:+ double_quote +:+ "вилка" +:+ double_quote +:+
  " зарплат в виде мин – макс, среднюю зарплату
    3: Сохранить сводный отчёт в виде csv-файла
-->>".

Definition main (fs : filesystem) (c : console) : ending * console :=
  match input "Введите имя файла: " c with
  | (None, c) => (EndOfInput, c)
  | (Some answer, c) =>
      let file := strip answer in
      match input menu c with
      | (None, c) => (EndOfInput, c)
      | (Some choice, c) =>
          match int choice with
          | Raise e => (Uncaught e, c)
          | Ok mode =>
              if (mode =? 1)%Z then
                match get_teams fs file with
                | Raise e => (Uncaught e, c)
                | Ok teams => (Returned, print_teams teams c)
                end
              else if (mode =? 2)%Z then
                match get_reports fs file with
                | Raise e => (Uncaught e, c)
                | Ok report => (Returned, print_report report c)
                end
              else if (mode =? 3)%Z then
                match get_reports fs file with
                | Raise e => (Uncaught e, c)
                | Ok report => make_report_csv_on report c
                end
              else (Uncaught (KeyError "Некорректный ввод."), c)
          end
      end
  end.

End presentation.

(** ** Running the program on the example of the specification *)

Definition example_header : list string := ["id"; "dept"; "team"; "salary"].

Definition example_rows : list (list string) :=
  [["1"; "A"; "X"; "100"];
   ["2"; "A"; "Y"; "300"];
   ["3"; "B"; "Z"; "200"]].

Definition example_fs : filesystem := λ path,
  if decide (path = "staff.csv") then Some (example_header :: example_rows)
  else None.

(** ** Vocabulary of the properties *)

(** The cells of [row] at the header positions that bear the name [tag],
    in header order. *)
Definition cells_named (tags : list string) (tag : string) (row : list string)
  : list string :=
  (filter (λ p, p.1 = tag) (zip tags row)).*2.

(** A record supplies a value for every header position. *)
Definition full_record (tags row : list string) : Prop := length tags ≤ length row.

(** A header that names one column twice, and a header that names the
    first of two columns twice. *)
Definition duplicate_fs : filesystem := λ path,
  if decide (path = "dup.csv") then Some [["a"; "a"]; ["1"; "2"]]
  else if decide (path = "dup3.csv") then Some [["a"; "a"; "b"]; ["1"; "2"; "3"]]
  else None.

(** The divisions of the rows that carry [department]: row [i] carries
    it when cell [i] of the department column is [department]. *)
Definition divisions_of (departments divisions : list string) (department : string)
  : gset string :=
  list_to_set (filter (λ p, p.1 = department) (zip departments divisions)).*2.

(** The parsed salaries of the rows that carry [department]. *)
Definition salaries_of (departments : list string) (values : list Z)
    (department : string) : list Z :=
  (filter (λ p, p.1 = department) (zip departments values)).*2.

Local Open Scope Z_scope.

(** The integer [z] is exactly a finite float: at most 53 significant
    bits, followed by at most 971 zero bits. *)
Definition exact_float (z : Z) : Prop :=
  ∃ u t, 0 ≤ u < 2 ^ 53 ∧ 0 ≤ t ≤ 971 ∧ Z.abs z = u * 2 ^ t.

(** The largest finite float, an integer. *)
Definition max_float : Z := (2 ^ 53 - 1) * 2 ^ 971.

(** The magnitude, in units of [2^-1074], that [nearest_float] gives to
    [a / b]. *)
Definition nearest_units (a b : Z) : Z :=
  let units := a * 2 ^ 1074 in
  let e := Z.max 0 (Z.log2 (units / b) - 52) in
  round_half_even units (b * 2 ^ e) * 2 ^ e.

Local Close Scope Z_scope.

(** [sum(r['head_count'] for r in report.values())] *)
Definition total_head_count (report : dict department_report) : Z :=
  py_sum (head_count <$> report.*2).

(** A salary beyond the exact integers of a float, and one beyond the
    range of a float (a one followed by 309 zeros). *)
Definition large_fs : filesystem := λ path,
  if decide (path = "large.csv") then
    Some [["id"; "dept"; "team"; "salary"]; ["1"; "A"; "X"; "9007199254740993"]]
  else if decide (path = "huge.csv") then
    Some [["id"; "dept"; "team"; "salary"];
          ["1"; "A"; "X"; "1" +:+ string_of_list_ascii (replicate 309 "0"%char)]]
  else None.

(** A salary cell that is not a number. *)
Definition invalid_fs : filesystem := λ path,
  if decide (path = "invalid.csv") then
    Some [["id"; "dept"; "team"; "salary"];
          ["1"; "A"; "X"; "100"];
          ["2"; "B"; "Y"; "abc"]]
  else None.

(** Records with more cells than the header has names. *)
Definition wide_fs : filesystem := λ path,
  if decide (path = "wide.csv") then
    Some [["id"; "dept"]; ["1"; "A"; "spare"]; ["2"; "B"]]
  else if decide (path = "cut.csv") then
    Some [["id"; "dept"]; ["1"; "A"]; ["2"; "B"]]
  else None.

(** The cells at header position [j], record after record. *)
Definition column_of (j : nat) (rows : list (list string)) : list string :=
  (λ row, default "" (row !! j)) <$> rows.

(** The records of the example in another order. *)
Definition shuffled_fs : filesystem := λ path,
  if decide (path = "shuffled.csv") then
    Some [example_header;
          ["3"; "B"; "Z"; "200"]; ["1"; "A"; "X"; "100"]; ["2"; "A"; "Y"; "300"]]
  else example_fs path.

(** Characters that [int()] and [str.strip()] treat differently: the
    file separator U+001C, the unit separator U+001F, the no-break
    space U+00A0 and the em space U+2003. *)
Definition file_separator : string := String "028" EmptyString.
Definition unit_separator : string := String "031" EmptyString.
Definition no_break_space : string := String "194" (String "160" EmptyString).
Definition em_space : string :=
  String "226" (String "128" (String "131" EmptyString)).

(** A literal of [n] digits one. *)
Definition ones (n : nat) : string := string_of_list_ascii (replicate n "1"%char).

(** * Properties *)

#[local] Set Warnings "-clear-no-such-hyp".

(** ** The program on the example of the specification *)

Example get_data_example :
  get_data example_fs "staff" =
    Ok [("id", ["1"; "2"; "3"]); ("dept", ["A"; "A"; "B"]);
        ("team", ["X"; "Y"; "Z"]); ("salary", ["100"; "300"; "200"])].
Proof. reflexivity. Qed.

Example get_teams_example :
  get_teams example_fs "staff" = Ok [("A", {["X"; "Y"]}); ("B", {["Z"]})].
Proof. vm_compute. reflexivity. Qed.

(** Both means are the float 200.0, that is [200 * 2^45 * 2^-45]. *)
Example get_reports_example :
  get_reports example_fs "staff.csv" =
    Ok [("A", DepartmentReport 100 300 2 (PyFloat false (200 * 2 ^ 45) (-45)));
        ("B", DepartmentReport 200 200 1 (PyFloat false (200 * 2 ^ 45) (-45)))].
Proof. vm_compute. reflexivity. Qed.

Example get_data_missing :
  get_data example_fs "absent" =
    Raise (FileNotFoundError "Нет файла с именем absent.csv в локальной директории").
Proof. reflexivity. Qed.

(** ** The numeric model on known values *)

Example int_examples :
  int <$> [" 12 "; "-5"; "+7"; "1_000"; "007"] = Ok <$> [12; -5; 7; 1000; 7]%Z ∧
  int_literal <$> ["1__0"; "_1"; "1_"; ""; "abc"; "- 1"; "12a"; "1 2"; "1.5"] =
    replicate 9 None.
Proof. split; reflexivity. Qed.

(** The characters of a text are decoded from its bytes. *)
Example chars_examples :
  chars "aд٣" = [(97, "a"); (1076, "д"); (1635, "٣")]%Z ∧
  (chars em_space).*1 = [8195%Z] ∧
  (chars (String "160" "a")).*1 = [-1; 97]%Z.
Proof. split_and!; reflexivity. Qed.

(** [int()] reads the decimal digits of any script and skips any
    whitespace character in a text that is not ASCII; in an ASCII text
    the separators U+001C to U+001F are not skipped, and they never are
    when they come first or last in any text.  The minus sign U+2212 is
    no sign. *)
Example int_unicode_examples :
  int_literal <$> ["١٠٠"; "１００"; "100" +:+ no_break_space;
                   no_break_space +:+ "٣"; em_space +:+ "7"; "+١"; "1_١"] =
    Some <$> [100; 100; 100; 3; 7; 1; 11]%Z ∧
  int_literal <$> [file_separator +:+ "12"; "12" +:+ unit_separator;
                   file_separator +:+ "12" +:+ no_break_space;
                   "−1"; "١٠٠д"; String "127" "1"; String "000" "1"] =
    replicate 7 None.
Proof. split; vm_compute; reflexivity. Qed.

(** A literal of 4300 digits is read, one of 4301 digits is rejected;
    underscores, the sign and the whitespace around do not count. *)
Example int_digit_limit :
  is_Some (int_literal (ones 4300)) ∧
  is_Some (int_literal (" -" +:+ ones 4300 +:+ " ")) ∧
  is_Some (int_literal (ones 4299 +:+ "_1")) ∧
  int_literal (ones 4301) = None ∧
  int_literal ("0" +:+ ones 4300) = None.
Proof.
  split_and!; try (vm_compute; reflexivity);
    apply (bool_decide_unpack _); vm_compute; exact I.
Qed.

(** [str.strip()] removes every whitespace character from both ends,
    the separators and the no-break space included, and nothing
    within. *)
Example strip_examples :
  strip " absent " = "absent" ∧
  strip (file_separator +:+ " a b" +:+ no_break_space +:+ " " +:+ unit_separator) = "a b" ∧
  strip ("staff" +:+ no_break_space) = "staff" ∧
  strip (em_space +:+ "штат" +:+ em_space) = "штат" ∧
  strip "  " = "".
Proof. split_and!; reflexivity. Qed.

(** [1 / 3] is [0x15555555555555 * 2^-54]; [round(2.675, 2)] is the
    float 2.67 and [round(0.125, 2)] is the float 0.12 (a tie, to even);
    [0 / -5] is [-0.0]; the largest finite float is [(2^53 - 1) * 2^971]
    and the quotient half a step above it overflows. *)
Example py_truediv_examples :
  py_truediv 1 3 = Ok (PyFloat false 6004799503160661 (-54)) ∧
  py_truediv 0 (-5) = Ok (PyFloat true 0 (-1074)) ∧
  py_truediv (2 ^ 1024 - 2 ^ 970 - 1) 1 = Ok (PyFloat false (2 ^ 53 - 1) 971) ∧
  py_truediv (2 ^ 1024 - 2 ^ 970) 1 = Raise OverflowError ∧
  py_truediv 1 0 = Raise ZeroDivisionError.
Proof. repeat split; vm_compute; reflexivity. Qed.

Example py_round_examples :
  (x ← py_truediv 2675 1000; py_round x 2) = py_truediv 267 100 ∧
  (x ← py_truediv 1 8; py_round x 2) = py_truediv 12 100 ∧
  (x ← py_truediv 3 8; py_round x 2) = py_truediv 38 100 ∧
  (x ← py_truediv 400 2; py_round x 2) = py_truediv 200 1.
Proof. repeat split; vm_compute; reflexivity. Qed.

(** ** Results and loops *)

Lemma bind_Ok {A B : Type} (m : result A) (f : A → result B) (b : B) :
  m ≫= f = Ok b ↔ ∃ a, m = Ok a ∧ f a = Ok b.
Proof.
  destruct m as [a|e]; simpl; split.
  - eauto.
  - by intros (a' & [= ->] & ?).
  - done.
  - by intros (? & ? & ?).
Qed.

(** ** Dictionaries *)

Section dict.
Context {V : Type}.
Implicit Types (d : dict V) (k : string) (v : V).

Lemma dict_get_set d k v k' :
  dict_get (dict_set d k v) k' = if decide (k = k') then Ok v else dict_get d k'.
Proof.
  induction d as [|[k0 v0] d IH]; simpl.
  - by destruct (decide (k = k')).
  - destruct (decide (k0 = k)) as [->|Hne]; simpl.
    + by destruct (decide (k = k')).
    + destruct (decide (k0 = k')) as [->|]; [|done].
      by rewrite decide_False by done.
Qed.

Lemma dict_get_Ok_elem d k v : dict_get d k = Ok v → (k, v) ∈ d.
Proof.
  induction d as [|[k0 v0] d IH]; simpl; [done|].
  destruct (decide (k0 = k)) as [->|].
  - intros [= ->]. left.
  - intros. right. auto.
Qed.

Lemma dict_get_is_Ok d k : k ∈ dict_keys d → ∃ v, dict_get d k = Ok v.
Proof.
  induction d as [|[k0 v0] d IH]; simpl.
  - by intros ?%elem_of_nil.
  - intros [->|Hin]%elem_of_cons.
    + rewrite decide_True by done. eauto.
    + destruct (decide (k0 = k)); eauto.
Qed.

Lemma dict_get_Ok_key d k v : dict_get d k = Ok v → k ∈ dict_keys d.
Proof.
  intros H%dict_get_Ok_elem. unfold dict_keys.
  apply list_elem_of_fmap. by exists (k, v).
Qed.

Lemma dict_get_Raise_KeyError d k e : dict_get d k = Raise e → e = KeyError k.
Proof.
  induction d as [|[k0 v0] d IH]; simpl; [congruence|].
  by destruct (decide (k0 = k)).
Qed.

Lemma dict_set_present d k v :
  k ∈ dict_keys d → dict_keys (dict_set d k v) = dict_keys d.
Proof.
  induction d as [|[k0 v0] d IH]; simpl.
  - by intros ?%elem_of_nil.
  - intros Hin. destruct (decide (k0 = k)) as [->|Hne]; simpl; [done|].
    f_equal. apply IH. apply elem_of_cons in Hin as [->|]; done.
Qed.

Lemma dict_set_fresh d k v : k ∉ dict_keys d → dict_set d k v = d ++ [(k, v)].
Proof.
  induction d as [|[k0 v0] d IH]; simpl; [done|].
  intros Hnin. apply not_elem_of_cons in Hnin as [Hne Hnin].
  rewrite decide_False by done. by rewrite IH.
Qed.

Lemma dict_keys_set_NoDup d k v :
  NoDup (dict_keys d) → NoDup (dict_keys (dict_set d k v)).
Proof.
  intros Hnd. destruct (decide (k ∈ dict_keys d)) as [Hin|Hnin].
  - by rewrite dict_set_present.
  - rewrite dict_set_fresh by done. unfold dict_keys in *.
    rewrite fmap_app. simpl. apply NoDup_app. split_and!; [done| |apply NoDup_singleton].
    intros x Hx ->%list_elem_of_singleton. done.
Qed.

Lemma dict_keys_set_elem d k v k' :
  k' ∈ dict_keys (dict_set d k v) ↔ k' = k ∨ k' ∈ dict_keys d.
Proof.
  destruct (decide (k ∈ dict_keys d)) as [Hin|Hnin].
  - rewrite dict_set_present by done. naive_solver.
  - rewrite dict_set_fresh by done. unfold dict_keys. rewrite fmap_app. simpl.
    rewrite elem_of_app, list_elem_of_singleton. naive_solver.
Qed.

(** A dictionary is determined by its keys and what they map to. *)
Lemma dict_items d (f : string → V) :
  NoDup (dict_keys d) →
  (∀ k, k ∈ dict_keys d → dict_get d k = Ok (f k)) →
  d = (λ k, (k, f k)) <$> dict_keys d.
Proof.
  induction d as [|[k0 v0] d IH]; simpl; [done|].
  intros [Hnin Hnd]%NoDup_cons Hget. f_equal.
  - specialize (Hget k0 ltac:(left)). rewrite decide_True in Hget by done.
    congruence.
  - apply IH; [done|]. intros k Hk. specialize (Hget k ltac:(by right)).
    rewrite decide_False in Hget; [done|]. by intros ->.
Qed.

Lemma dict_fromkeys_from d keys v :
  let d' := foldl (λ d key, dict_set d key v) d keys in
  (∀ k, k ∈ dict_keys d' ↔ k ∈ dict_keys d ∨ k ∈ keys) ∧
  (NoDup (dict_keys d) → NoDup (dict_keys d')) ∧
  (∀ k, dict_get d' k = if decide (k ∈ keys) then Ok v else dict_get d k) ∧
  (NoDup (dict_keys d ++ keys) → dict_keys d' = dict_keys d ++ keys).
Proof.
  revert d. induction keys as [|k0 keys IH]; intros d; simpl.
  - split_and!; [|done| |by rewrite app_nil_r].
    + intros k. rewrite elem_of_nil. naive_solver.
    + intros k. destruct (decide (k ∈ [])) as [?%elem_of_nil|]; done.
  - destruct (IH (dict_set d k0 v)) as (Hin & Hnd & Hget & Hkeys).
    split_and!.
    + intros k. rewrite Hin, dict_keys_set_elem, elem_of_cons. naive_solver.
    + intros ?. by apply Hnd, dict_keys_set_NoDup.
    + intros k. rewrite Hget, dict_get_set.
      destruct (decide (k ∈ k0 :: keys)) as [Hc|Hc];
        destruct (decide (k ∈ keys)) as [Hk|Hk];
        destruct (decide (k0 = k)) as [He|He]; try done;
        exfalso; rewrite elem_of_cons in Hc; naive_solver.
    + intros Hnd'.
      assert (k0 ∉ dict_keys d) as Hk0.
      { apply NoDup_app in Hnd' as (_ & Hd & _). intros ?. eapply Hd; [done|left]. }
      assert (dict_keys (dict_set d k0 v) ++ keys = dict_keys d ++ k0 :: keys) as Heq.
      { rewrite dict_set_fresh by done. unfold dict_keys. rewrite fmap_app.
        by rewrite <- app_assoc. }
      rewrite Hkeys; [done|]. by rewrite Heq.
Qed.

Lemma dict_fromkeys_elem keys v k : k ∈ dict_keys (dict_fromkeys keys v) ↔ k ∈ keys.
Proof.
  destruct (dict_fromkeys_from [] keys v) as (H & _). rewrite (H k).
  unfold dict_keys. simpl. rewrite elem_of_nil. naive_solver.
Qed.

Lemma dict_fromkeys_NoDup keys v : NoDup (dict_keys (dict_fromkeys keys v)).
Proof.
  destruct (dict_fromkeys_from [] keys v) as (_ & H & _). apply H, NoDup_nil_2.
Qed.

Lemma dict_fromkeys_get keys v k : k ∈ keys → dict_get (dict_fromkeys keys v) k = Ok v.
Proof.
  intros Hk. destruct (dict_fromkeys_from [] keys v) as (_ & _ & H & _).
  unfold dict_fromkeys. rewrite H. by rewrite decide_True.
Qed.

Lemma dict_fromkeys_keys keys v : NoDup keys → dict_keys (dict_fromkeys keys v) = keys.
Proof.
  intros Hnd. destruct (dict_fromkeys_from [] keys v) as (_ & _ & _ & H).
  by apply H.
Qed.
End dict.

Lemma dict_get_elem_NoDup {V : Type} (d : dict V) k v :
  NoDup (dict_keys d) → (k, v) ∈ d → dict_get d k = Ok v.
Proof.
  induction d as [|[k0 v0] d IH]; simpl.
  - by intros _ ?%elem_of_nil.
  - intros [Hnin Hnd]%NoDup_cons [[= -> ->]|Hin]%elem_of_cons.
    + by rewrite decide_True.
    + rewrite decide_False; [by apply IH|].
      intros ->. apply Hnin, list_elem_of_fmap. by exists (k, v).
Qed.

Lemma for_each_invariant {A S : Type} (P : S → Prop) (body : S → A → result S) l :
  (∀ s x s', P s → body s x = Ok s' → P s') →
  ∀ s s', P s → for_each body s l = Ok s' → P s'.
Proof.
  intros Hbody. induction l as [|x l IH]; intros s s' Hs; simpl.
  - by intros [= <-].
  - intros (s1 & H1 & H2)%bind_Ok. eauto.
Qed.

(** ** [list_getitem] *)

Lemma list_getitem_nat {A : Type} (l : list A) (i : nat) x :
  l !! i = Some x → list_getitem l (Z.of_nat i) = Ok x.
Proof.
  intros H. unfold list_getitem.
  assert ((Z.of_nat i <? 0)%Z = false) as Hi by (apply Z.ltb_ge; lia).
  rewrite Hi. simpl. by rewrite Hi, Nat2Z.id, H.
Qed.

Lemma list_getitem_last {A : Type} (l : list A) x :
  list_getitem (l ++ [x]) (-1) = Ok x.
Proof.
  unfold list_getitem. simpl. rewrite length_app. simpl.
  assert ((-1 + Z.of_nat (length l + 1) <? 0)%Z = false) as ->
    by (apply Z.ltb_ge; lia).
  simpl.
  replace (Z.to_nat (-1 + Z.of_nat (length l + 1))) with (length l + 0) by lia.
  by rewrite lookup_app_r, Nat.add_comm, Nat.add_sub by lia.
Qed.

(** ** The loader *)

Lemma cells_named_cons t tags tag c row :
  cells_named (t :: tags) tag (c :: row) =
  (if decide (t = tag) then [c] else []) ++ cells_named tags tag row.
Proof.
  unfold cells_named. simpl. rewrite filter_cons. simpl.
  by destruct (decide (t = tag)).
Qed.

Lemma append_row_from row ts : ∀ j (c : dict (list string)),
  (∀ t, t ∈ ts → t ∈ dict_keys c) →
  j + length ts ≤ length row →
  ∃ c', for_each (append_cell row) c (zip (seq j (length ts)) ts) = Ok c' ∧
        dict_keys c' = dict_keys c ∧
        ∀ k col, dict_get c k = Ok col →
                 dict_get c' k = Ok (col ++ cells_named ts k (drop j row)).
Proof.
  induction ts as [|t ts IH]; intros j c Hkeys Hlen; simpl.
  - exists c. split_and!; [done..|]. intros k col ->.
    unfold cells_named. simpl. by rewrite app_nil_r.
  - simpl in Hlen.
    destruct (dict_get_is_Ok c t) as [col0 Hcol0]; [apply Hkeys; left|].
    destruct (lookup_lt_is_Some_2 row j) as [cell Hcell]; [lia|].
    rewrite Hcol0. simpl. rewrite (list_getitem_nat _ _ _ Hcell). simpl.
    destruct (IH (S j) (dict_set c t (col0 ++ [cell]))) as (c' & Hrun & Hk & Hget).
    { intros t' Ht'. rewrite dict_set_present; [|apply Hkeys; left].
      apply Hkeys. by right. }
    { lia. }
    exists c'. split_and!; [done| |].
    + rewrite Hk. apply dict_set_present, Hkeys. left.
    + intros k col Hcol.
      rewrite (drop_S _ _ _ Hcell), cells_named_cons, (assoc_L (++)).
      apply Hget. rewrite dict_get_set.
      destruct (decide (t = k)) as [->|]; [|by rewrite app_nil_r].
      congruence.
Qed.

Lemma append_row_run tags row (c : dict (list string)) :
  (∀ t, t ∈ tags → t ∈ dict_keys c) →
  full_record tags row →
  ∃ c', append_row tags c row = Ok c' ∧
        dict_keys c' = dict_keys c ∧
        ∀ k col, dict_get c k = Ok col →
                 dict_get c' k = Ok (col ++ cells_named tags k row).
Proof.
  intros Hkeys Hlen. apply (append_row_from row tags 0 c Hkeys Hlen).
Qed.

Lemma append_rows_run tags rows : ∀ c : dict (list string),
  (∀ t, t ∈ tags → t ∈ dict_keys c) →
  Forall (full_record tags) rows →
  ∃ c', for_each (append_row tags) c rows = Ok c' ∧
        dict_keys c' = dict_keys c ∧
        ∀ k col, dict_get c k = Ok col →
                 dict_get c' k = Ok (col ++ concat (cells_named tags k <$> rows)).
Proof.
  induction rows as [|row rows IH]; intros c Hkeys Hrows; simpl.
  - exists c. split_and!; [done..|]. intros k col ->. by rewrite app_nil_r.
  - apply Forall_cons in Hrows as [Hrow Hrows].
    destruct (append_row_run tags row c Hkeys Hrow) as (c1 & -> & Hk1 & Hget1).
    simpl. destruct (IH c1) as (c' & Hrun & Hk & Hget); [by rewrite Hk1|done|].
    exists c'. split_and!; [done|congruence|].
    intros k col Hcol. rewrite (assoc_L (++)). by apply Hget, Hget1.
Qed.

(** What [get_data] returns for a file whose records are full, whatever
    the header: one key per distinct name, and under each name the cells
    of all the positions that bear it, record after record. *)
Lemma get_data_columns fs file tags rows :
  fs (csv_path file) = Some (tags :: rows) →
  Forall (full_record tags) rows →
  ∃ content,
    get_data fs file = Ok content ∧
    NoDup (dict_keys content) ∧
    (∀ k, k ∈ dict_keys content ↔ k ∈ tags) ∧
    (NoDup tags → dict_keys content = tags) ∧
    ∀ tag, tag ∈ tags →
      dict_get content tag = Ok (concat (cells_named tags tag <$> rows)).
Proof.
  intros Hfs Hrows. unfold get_data. rewrite Hfs.
  destruct (append_rows_run tags rows (dict_fromkeys tags [])) as (c' & Hrun & Hk & Hget).
  { intros t Ht. by apply dict_fromkeys_elem. }
  { done. }
  exists c'. split_and!; [done| | | |].
  - rewrite Hk. apply dict_fromkeys_NoDup.
  - intros k. rewrite Hk. apply dict_fromkeys_elem.
  - intros Hnd. rewrite Hk. by apply dict_fromkeys_keys.
  - intros tag Htag. apply (Hget tag []). by apply dict_fromkeys_get.
Qed.

(** The keys of a loaded table are distinct, whatever the file. *)
Lemma get_data_NoDup fs file content :
  get_data fs file = Ok content → NoDup (dict_keys content).
Proof.
  unfold get_data. destruct (fs (csv_path file)) as [[|tags rows]|]; [done| |done].
  apply (for_each_invariant (λ c : dict (list string), NoDup (dict_keys c))).
  - intros c row c' Hc. unfold append_row.
    apply (for_each_invariant (λ c : dict (list string), NoDup (dict_keys c))); [|done].
    intros c0 [i tag] c1 Hc0. unfold append_cell.
    intros (col & _ & (cell & _ & [= <-])%bind_Ok)%bind_Ok.
    by apply dict_keys_set_NoDup.
  - apply dict_fromkeys_NoDup.
Qed.

(** ** The path opened by the loader *)

Lemma string_length_append (s1 s2 : string) :
  String.length (s1 +:+ s2) = String.length s1 + String.length s2.
Proof. induction s1 as [|c s1 IH]; simpl; [done|]. by rewrite IH. Qed.

Lemma substring_all (s : string) : substring 0 (String.length s) s = s.
Proof. induction s as [|c s IH]; simpl; [done|]. by rewrite IH. Qed.

Lemma substring_append_r (p s : string) :
  substring (String.length p) (String.length s) (p +:+ s) = s.
Proof. induction p as [|c p IH]; simpl; [apply substring_all|done]. Qed.

Lemma substring_split (s : string) : ∀ m,
  m ≤ String.length s →
  s = substring 0 m s +:+ substring m (String.length s - m) s.
Proof.
  induction s as [|c s IH]; intros [|m] Hm; simpl in *; try lia.
  - done.
  - by rewrite substring_all.
  - change (String c s =
            String c (substring 0 m s +:+ substring m (String.length s - m) s)).
    f_equal. apply IH. lia.
Qed.

(** [s.endswith(suffix)] holds exactly when [s] is some text followed by
    [suffix]. *)
Lemma endswith_spec (s suffix : string) :
  endswith s suffix = true ↔ ∃ stem, s = stem +:+ suffix.
Proof.
  unfold endswith. rewrite andb_true_iff, Nat.leb_le, String.eqb_eq. split.
  - intros [Hle Hsub].
    exists (substring 0 (String.length s - String.length suffix) s).
    pose proof (substring_split s (String.length s - String.length suffix)) as Hs.
    replace (String.length s - (String.length s - String.length suffix))
      with (String.length suffix) in Hs by lia.
    rewrite Hsub in Hs. apply Hs. lia.
  - intros [stem ->]. rewrite string_length_append. split; [lia|].
    replace (String.length stem + String.length suffix - String.length suffix)
      with (String.length stem) by lia.
    apply substring_append_r.
Qed.

(** C8. [get_data] opens the supplied name when it already ends in
    [.csv] and the name followed by [.csv] otherwise, and nothing else
    of the file system matters; when no file is stored at that path it
    raises [FileNotFoundError] with a message that contains the path;
    that error is raised in no other case, and a stored file with a
    header and full records is loaded without any error. *)
Theorem get_data_path_and_not_found (fs : filesystem) (file : string) :
  ((∃ stem, file = stem +:+ ".csv") → csv_path file = file) ∧
  ((¬ ∃ stem, file = stem +:+ ".csv") → csv_path file = file +:+ ".csv") ∧
  (∀ fs' : filesystem,
     fs' (csv_path file) = fs (csv_path file) → get_data fs' file = get_data fs file) ∧
  (fs (csv_path file) = None →
     get_data fs file =
       Raise (FileNotFoundError
                ("Нет файла с именем " +:+ csv_path file +:+ " в локальной директории"))) ∧
  (∀ msg, get_data fs file = Raise (FileNotFoundError msg) → fs (csv_path file) = None) ∧
  (∀ tags rows,
     fs (csv_path file) = Some (tags :: rows) →
     Forall (full_record tags) rows →
     ∃ content, get_data fs file = Ok content).
Proof.
  split_and!.
  - intros H%endswith_spec. unfold csv_path. by rewrite H.
  - intros H. unfold csv_path. destruct (endswith file ".csv") eqn:E; [|done].
    by apply endswith_spec in E.
  - intros fs' H. unfold get_data. by rewrite H.
  - intros H. unfold get_data. by rewrite H.
  - intros msg. unfold get_data.
    destruct (fs (csv_path file)) as [[|tags rows]|]; [done| |done].
    intros Hrun. exfalso. revert Hrun.
    generalize (dict_fromkeys tags ([] : list string)).
    induction rows as [|row rows IH]; intros c; simpl; [done|].
    destruct (append_row tags c row) as [c1|e] eqn:Hrow; simpl; [apply IH|].
    intros [= ->]. revert Hrow. unfold append_row.
    generalize (enumerate tags). intros its. revert c.
    induction its as [|[i tag] its IHits]; intros c; simpl; [done|].
    destruct (dict_get c tag) as [col|e] eqn:Hcol; simpl.
    + unfold list_getitem.
      repeat match goal with |- context [if ?b then _ else _] => destruct b end;
        simpl; try done;
        (destruct (row !! _); simpl; [apply IHits|done]).
    + intros [= ->]. by apply dict_get_Raise_KeyError in Hcol.
  - intros tags rows Hfs Hrows.
    destruct (get_data_columns fs file tags rows Hfs Hrows) as (content & ? & _).
    by exists content.
Qed.

(** ** Columns of the loaded table *)

Lemma cells_named_absent tags tag row : tag ∉ tags → cells_named tags tag row = [].
Proof.
  revert row. induction tags as [|t tags IH]; intros [|c row] Hnin; try done.
  apply not_elem_of_cons in Hnin as [Hne Hnin].
  rewrite cells_named_cons, IH by done. by rewrite decide_False.
Qed.

Lemma cells_named_unique tags : ∀ j tag row cell,
  NoDup tags → tags !! j = Some tag → row !! j = Some cell →
  cells_named tags tag row = [cell].
Proof.
  induction tags as [|t tags IH]; intros j tag [|c row] cell Hnd Htag Hcell;
    try done.
  apply NoDup_cons in Hnd as [Hnin Hnd]. rewrite cells_named_cons.
  destruct j as [|j]; simpl in *.
  - injection Htag as ->. injection Hcell as ->.
    rewrite decide_True by done. by rewrite cells_named_absent.
  - rewrite decide_False; [by eapply IH|].
    intros ->. apply Hnin. by eapply list_elem_of_lookup_2.
Qed.

Lemma cells_named_length tags tag row :
  full_record tags row →
  length (cells_named tags tag row) = length (filter (λ t, t = tag) tags).
Proof.
  unfold full_record. revert row.
  induction tags as [|t tags IH]; intros [|c row] Hlen; simpl in *; try done; try lia.
  rewrite cells_named_cons, length_app, filter_cons, IH by lia.
  by destruct (decide (t = tag)).
Qed.

Lemma concat_cells_length tags tag rows :
  Forall (full_record tags) rows →
  length (concat (cells_named tags tag <$> rows)) =
  length (filter (λ t, t = tag) tags) * length rows.
Proof.
  induction 1 as [|row rows Hrow Hrows IH]; csimpl; [lia|].
  rewrite length_app, IH, cells_named_length by done. lia.
Qed.

Lemma concat_cells_unique tags j tag rows :
  NoDup tags → tags !! j = Some tag →
  Forall (full_record tags) rows →
  Forall2 (λ row cell, row !! j = Some cell) rows
          (concat (cells_named tags tag <$> rows)).
Proof.
  intros Hnd Htag. induction 1 as [|row rows Hrow Hrows IH]; csimpl; [constructor|].
  destruct (lookup_lt_is_Some_2 row j) as [cell Hcell].
  { apply lookup_lt_Some in Htag. unfold full_record in Hrow. lia. }
  rewrite (cells_named_unique tags j tag row cell) by done.
  by constructor.
Qed.

(** C3 (as amended). When the header bears a name at several positions,
    the loaded table has that name as one key, and its column holds, for
    each record in order, the cells at every position that bears the
    name, in header order: positions times records cells, none
    overwritten. *)
Theorem get_data_duplicate_header (fs : filesystem) (file : string)
    (tags : list string) (rows : list (list string)) (name : string) :
  fs (csv_path file) = Some (tags :: rows) →
  Forall (full_record tags) rows →
  name ∈ tags →
  ∃ content column,
    get_data fs file = Ok content ∧
    NoDup (dict_keys content) ∧
    name ∈ dict_keys content ∧
    dict_get content name = Ok column ∧
    column = concat ((λ row, cells_named tags name row) <$> rows) ∧
    length column = length (filter (λ t, t = name) tags) * length rows.
Proof.
  intros Hfs Hrows Hname.
  destruct (get_data_columns fs file tags rows Hfs Hrows)
    as (content & Hrun & Hnd & Hkeys & _ & Hget).
  exists content, (concat (cells_named tags name <$> rows)).
  split_and!; [done|done|by apply Hkeys|by apply Hget|done|].
  by apply concat_cells_length.
Qed.

Lemma get_data_duplicate_header_witness :
  ∃ content column,
    get_data duplicate_fs "dup" = Ok content ∧
    NoDup (dict_keys content) ∧
    "a" ∈ dict_keys content ∧
    dict_get content "a" = Ok column ∧
    column = concat ((λ row, cells_named ["a"; "a"] "a" row) <$> [["1"; "2"]]) ∧
    length column = length (filter (λ t, t = "a") ["a"; "a"]) * length [["1"; "2"]].
Proof.
  apply (get_data_duplicate_header duplicate_fs "dup" ["a"; "a"] [["1"; "2"]] "a").
  - reflexivity.
  - repeat constructor.
  - left.
Defined.

(** C3, as stated, fails: with the header [a;a] and the record [1;2],
    the column [a] is [1;2], not the cells [2] of the last position
    that bears the name. *)
Lemma get_data_duplicate_header_not_overwritten :
  get_data duplicate_fs "dup" = Ok [("a", ["1"; "2"])] ∧
  (content ← get_data duplicate_fs "dup"; dict_get content "a") ≠ Ok ["2"].
Proof. split; [reflexivity|]. vm_compute. discriminate. Qed.

(** C4 (as amended). When the header names are distinct and every record
    supplies a value for every header position, the loaded table has the
    header names as keys, in header order, every column has as many
    cells as there are data records, and the cell of row [r] in the
    column of position [j] is the cell [j] of record [r]. *)
Theorem get_data_table_invariant (fs : filesystem) (file : string)
    (tags : list string) (rows : list (list string)) :
  fs (csv_path file) = Some (tags :: rows) →
  NoDup tags →
  Forall (full_record tags) rows →
  ∃ content,
    get_data fs file = Ok content ∧
    dict_keys content = tags ∧
    Forall (λ kv, length kv.2 = length rows) content ∧
    ∀ j tag, tags !! j = Some tag →
      ∃ column, dict_get content tag = Ok column ∧
                Forall2 (λ row cell, row !! j = Some cell) rows column.
Proof.
  intros Hfs Hnd Hrows.
  destruct (get_data_columns fs file tags rows Hfs Hrows)
    as (content & Hrun & Hndk & Hin & Hkeys & Hget).
  exists content. split_and!; [done|by apply Hkeys| |].
  - apply Forall_forall. intros [k col] Hkv. simpl.
    apply dict_get_elem_NoDup in Hkv as Hcol; [|done].
    assert (k ∈ tags) as Hk by (by apply Hin, (dict_get_Ok_key _ _ col)).
    rewrite Hget in Hcol by done. injection Hcol as <-.
    apply list_elem_of_lookup_1 in Hk as [j Hj].
    symmetry. eapply Forall2_length, concat_cells_unique; done.
  - intros j tag Htag. eexists. split.
    + apply Hget. by eapply list_elem_of_lookup_2.
    + by apply concat_cells_unique.
Qed.

Lemma get_data_table_invariant_witness :
  ∃ content,
    get_data example_fs "staff" = Ok content ∧
    dict_keys content = example_header ∧
    Forall (λ kv, length kv.2 = length example_rows) content ∧
    ∀ j tag, example_header !! j = Some tag →
      ∃ column, dict_get content tag = Ok column ∧
                Forall2 (λ row cell, row !! j = Some cell) example_rows column.
Proof.
  apply (get_data_table_invariant example_fs "staff" example_header example_rows).
  - reflexivity.
  - apply (bool_decide_unpack _). vm_compute. exact I.
  - repeat constructor.
Defined.

(** C4, as stated, fails: with the header [a;a;b] and the full record
    [1;2;3] the column [a] has two cells and the column [b] has one,
    for one data record. *)
Lemma get_data_duplicate_header_unequal_columns :
  Forall (full_record ["a"; "a"; "b"]) [["1"; "2"; "3"]] ∧
  get_data duplicate_fs "dup3" = Ok [("a", ["1"; "2"]); ("b", ["3"])] ∧
  ¬ ∃ n, Forall (λ kv : string * list string, length kv.2 = n)
                [("a", ["1"; "2"]); ("b", ["3"])].
Proof.
  split_and!.
  - repeat constructor.
  - reflexivity.
  - intros [n Hn]. apply Forall_cons in Hn as [H1 [H2 _]%Forall_cons].
    simpl in *. congruence.
Qed.

(** ** Columns by position *)

Lemma column_at_lookup (content : dict (list string)) (i : nat) k column :
  NoDup (dict_keys content) →
  content !! i = Some (k, column) →
  column_at content (Z.of_nat i) = Ok column.
Proof.
  intros Hnd Hi. unfold column_at.
  rewrite (list_getitem_nat _ _ k).
  - simpl. apply dict_get_elem_NoDup; [done|]. by eapply list_elem_of_lookup_2.
  - unfold dict_keys. by rewrite list_lookup_fmap, Hi.
Qed.

Lemma column_at_last (content : dict (list string)) k column :
  NoDup (dict_keys content) →
  last content = Some (k, column) →
  column_at content (-1) = Ok column.
Proof.
  intros Hnd [c ->]%last_Some. unfold column_at, dict_keys.
  rewrite fmap_app. simpl. rewrite list_getitem_last. simpl.
  apply dict_get_elem_NoDup; [done|]. apply elem_of_app. right. left.
Qed.

Lemma column_at_short (content : dict (list string)) (i : nat) :
  length content ≤ i → column_at content (Z.of_nat i) = Raise IndexError.
Proof.
  intros Hi. unfold column_at, list_getitem.
  assert ((Z.of_nat i <? 0)%Z = false) as Hlt by (apply Z.ltb_ge; lia).
  rewrite Hlt. simpl. rewrite Hlt, Nat2Z.id.
  rewrite lookup_ge_None_2; [done|]. unfold dict_keys. by rewrite length_fmap.
Qed.

(** ** [sorted(set(l))] *)

Lemma sorted_set_elem l x : x ∈ sorted_set l ↔ x ∈ l.
Proof.
  unfold sorted_set. rewrite merge_sort_Permutation, elem_of_elements.
  apply elem_of_list_to_set.
Qed.

Lemma sorted_set_NoDup l : NoDup (sorted_set l).
Proof.
  unfold sorted_set. rewrite merge_sort_Permutation. apply NoDup_elements.
Qed.

Lemma sorted_set_sorted l : StronglySorted String.le (sorted_set l).
Proof. apply StronglySorted_merge_sort; apply _. Qed.

(** ** The hierarchy *)

Lemma add_division_run pairs : ∀ out : dict (gset string),
  (∀ p, p ∈ pairs → p.1 ∈ dict_keys out) →
  ∃ out', for_each add_division out pairs = Ok out' ∧
          dict_keys out' = dict_keys out ∧
          ∀ k s, dict_get out k = Ok s →
                 dict_get out' k =
                   Ok (s ∪ list_to_set (filter (λ p, p.1 = k) pairs).*2).
Proof.
  induction pairs as [|[d v] pairs IH]; intros out Hkeys; simpl.
  - exists out. split_and!; [done..|]. intros k s ->. f_equal. set_solver.
  - destruct (dict_get_is_Ok out d) as [s0 Hs0]; [apply (Hkeys (d, v)); left|].
    rewrite Hs0. simpl.
    destruct (IH (dict_set out d (s0 ∪ {[v]}))) as (out' & Hrun & Hk & Hget).
    { intros p Hp. rewrite dict_set_present; [|apply (Hkeys (d, v)); left].
      apply Hkeys. by right. }
    exists out'. split_and!; [done| |].
    + rewrite Hk. apply dict_set_present, (Hkeys (d, v)). left.
    + intros k s Hs. rewrite filter_cons. simpl.
      destruct (decide (d = k)) as [->|Hne].
      * erewrite Hget; [|by rewrite dict_get_set, decide_True].
        f_equal. assert (s0 = s) as -> by congruence. set_solver.
      * erewrite Hget; [done|]. by rewrite dict_get_set, decide_False.
Qed.

Lemma teams_of_table_run (content : dict (list string)) k1 departments k2 divisions :
  NoDup (dict_keys content) →
  content !! 1 = Some (k1, departments) →
  content !! 2 = Some (k2, divisions) →
  ∃ out,
    teams_of_table content = Ok out ∧
    dict_keys out = sorted_set departments ∧
    ∀ d, d ∈ departments →
         dict_get out d = Ok (divisions_of departments divisions d).
Proof.
  intros Hnd H1 H2. unfold teams_of_table.
  pose proof (column_at_lookup content 1 k1 departments Hnd H1) as Hc1.
  pose proof (column_at_lookup content 2 k2 divisions Hnd H2) as Hc2.
  change (Z.of_nat 1) with 1%Z in Hc1. change (Z.of_nat 2) with 2%Z in Hc2.
  rewrite Hc1. simpl. rewrite Hc2. simpl.
  destruct (add_division_run (zip departments divisions)
              (dict_fromkeys (sorted_set departments) ∅))
    as (out & Hrun & Hk & Hget).
  { intros [d v] Hp. apply dict_fromkeys_elem, sorted_set_elem. simpl.
    apply elem_of_zip_l in Hp. done. }
  exists out. split_and!; [done| |].
  - rewrite Hk. apply dict_fromkeys_keys, sorted_set_NoDup.
  - intros d Hd. erewrite Hget; [|by apply dict_fromkeys_get, sorted_set_elem].
    f_equal. unfold divisions_of. set_solver.
Qed.

Lemma elem_of_divisions_of departments divisions d division :
  division ∈ divisions_of departments divisions d ↔
  ∃ i, departments !! i = Some d ∧ divisions !! i = Some division.
Proof.
  unfold divisions_of. rewrite elem_of_list_to_set, list_elem_of_fmap. split.
  - intros ([d' v] & -> & [Hd Hin]%list_elem_of_filter). simpl in *. subst d'.
    apply elem_of_lookup_zip_with in Hin as (i & x & y & [= <- <-] & ? & ?). eauto.
  - intros (i & Hd & Hv). exists (d, division). split; [done|].
    apply list_elem_of_filter. split; [done|].
    apply elem_of_lookup_zip_with. by exists i, d, division.
Qed.

(** C2. For the table loaded from a file, with the departments in its
    second column and the divisions in its third, [get_teams] returns a
    mapping whose keys are the distinct department values, and under
    each department the set of the divisions of the rows that carry it:
    a division is in the set exactly when some row has that department
    and that division.  (This holds whatever the lengths of the
    columns.) *)
Theorem get_teams_hierarchy (fs : filesystem) (file : string)
    (content : dict (list string)) (n : nat)
    (k1 k2 : string) (departments divisions : list string) :
  get_data fs file = Ok content →
  Forall (λ kv, length kv.2 = n) content →
  content !! 1 = Some (k1, departments) →
  content !! 2 = Some (k2, divisions) →
  ∃ out,
    get_teams fs file = Ok out ∧
    NoDup (dict_keys out) ∧
    (∀ d, d ∈ dict_keys out ↔ d ∈ departments) ∧
    ∀ d, d ∈ departments →
      ∃ teams,
        dict_get out d = Ok teams ∧
        teams = divisions_of departments divisions d ∧
        ∀ division,
          division ∈ teams ↔
          ∃ i, departments !! i = Some d ∧ divisions !! i = Some division.
Proof.
  intros Hdata _ H1 H2.
  destruct (teams_of_table_run content k1 departments k2 divisions)
    as (out & Hrun & Hk & Hget); [by eapply get_data_NoDup|done..|].
  exists out. split_and!.
  - unfold get_teams. by rewrite Hdata.
  - rewrite Hk. apply sorted_set_NoDup.
  - intros d. rewrite Hk. apply sorted_set_elem.
  - intros d Hd. eexists. split_and!; [by apply Hget|done|].
    intros division. apply elem_of_divisions_of.
Qed.

Lemma get_teams_hierarchy_witness :
  ∃ out,
    get_teams example_fs "staff" = Ok out ∧
    NoDup (dict_keys out) ∧
    (∀ d, d ∈ dict_keys out ↔ d ∈ ["A"; "A"; "B"]) ∧
    ∀ d, d ∈ ["A"; "A"; "B"] →
      ∃ teams,
        dict_get out d = Ok teams ∧
        teams = divisions_of ["A"; "A"; "B"] ["X"; "Y"; "Z"] d ∧
        ∀ division,
          division ∈ teams ↔
          ∃ i, ["A"; "A"; "B"] !! i = Some d ∧ ["X"; "Y"; "Z"] !! i = Some division.
Proof.
  apply (get_teams_hierarchy example_fs "staff"
           [("id", ["1"; "2"; "3"]); ("dept", ["A"; "A"; "B"]);
            ("team", ["X"; "Y"; "Z"]); ("salary", ["100"; "300"; "200"])]
           3 "dept" "team").
  - reflexivity.
  - repeat constructor.
  - reflexivity.
  - reflexivity.
Defined.

(** ** Rounding *)

Section rounding.
Local Open Scope Z_scope.

Lemma round_half_even_lower n d k :
  0 < d → k * d ≤ n → k ≤ round_half_even n d.
Proof.
  intros Hd Hk. unfold round_half_even.
  assert (k ≤ n / d) by (apply Z.div_le_lower_bound; lia).
  repeat match goal with |- context [if ?b then _ else _] => destruct b end; lia.
Qed.

Lemma round_half_even_upper n d k :
  0 < d → n ≤ k * d → round_half_even n d ≤ k.
Proof.
  intros Hd Hk. unfold round_half_even.
  pose proof (Z.div_mod n d ltac:(lia)) as Hn.
  pose proof (Z.mod_pos_bound n d Hd) as Hr.
  assert (n / d ≤ k) by (apply Z.div_le_upper_bound; lia).
  assert (2 * (n mod d) < d ∨ n / d + 1 ≤ k) as [Hlt|Hle].
  { destruct (Z.ltb_spec (2 * (n mod d)) d); [by left|right]. nia. }
  - apply Z.ltb_lt in Hlt. by rewrite Hlt.
  - repeat match goal with |- context [if ?b then _ else _] => destruct b end; lia.
Qed.

(** The exponent chosen by [nearest_float] is not negative, and when it
    is positive the quotient has at least 53 bits above it. *)
Lemma nearest_exponent units b :
  let e := Z.max 0 (Z.log2 (units / b) - 52) in
  0 ≤ e ∧ (0 < e → 0 < b → 2 ^ (52 + e) * b ≤ units).
Proof.
  intros e. split; [lia|]. intros He Hb.
  assert (0 < Z.log2 (units / b)) as Hlog by lia.
  assert (0 < units / b) as Hq.
  { destruct (Z.le_gt_cases (units / b) 0) as [Hle|]; [|done].
    rewrite Z.log2_nonpos in Hlog by done. lia. }
  destruct (Z.log2_spec _ Hq) as [Hlo _].
  replace (52 + e) with (Z.log2 (units / b)) by lia.
  pose proof (Z.mul_div_le units b Hb). nia.
Qed.

Lemma nearest_units_nonneg a b : 0 ≤ a → 0 < b → 0 ≤ nearest_units a b.
Proof.
  intros Ha Hb. unfold nearest_units.
  destruct (nearest_exponent (a * 2 ^ 1074) b) as [He _].
  set (e := Z.max 0 _) in *.
  assert (0 < 2 ^ e) by (by apply Z.pow_pos_nonneg).
  apply Z.mul_nonneg_nonneg; [|lia].
  apply round_half_even_lower; [nia|]. assert (0 < 2 ^ 1074) by done. nia.
Qed.

(** Rounding does not cross a number that is itself a float, from
    below: a float not above [a / b] is not above the rounded value. *)
Lemma nearest_units_lower a b u t :
  0 < b → 0 ≤ u < 2 ^ 53 → 0 ≤ t →
  u * 2 ^ t * b ≤ a * 2 ^ 1074 →
  u * 2 ^ t ≤ nearest_units a b.
Proof.
  intros Hb Hu Ht Hle. unfold nearest_units.
  destruct (nearest_exponent (a * 2 ^ 1074) b) as [He Hnorm].
  set (units := a * 2 ^ 1074) in *. set (e := Z.max 0 _) in *.
  assert (0 < 2 ^ e) as Hpe by (by apply Z.pow_pos_nonneg).
  assert (0 < 2 ^ t) as Hpt by (by apply Z.pow_pos_nonneg).
  destruct (Z.le_gt_cases e t) as [Het|Het].
  - assert (2 ^ t = 2 ^ (t - e) * 2 ^ e) as Hsplit.
    { rewrite <- Z.pow_add_r by lia. f_equal. lia. }
    rewrite Hsplit, Z.mul_assoc. apply Z.mul_le_mono_nonneg_r; [lia|].
    apply round_half_even_lower; [nia|]. rewrite Hsplit in Hle. nia.
  - assert (2 ^ 52 ≤ round_half_even units (b * 2 ^ e)) as Hm.
    { apply round_half_even_lower; [nia|].
      specialize (Hnorm ltac:(lia) Hb). rewrite Z.pow_add_r in Hnorm by lia. nia. }
    assert (2 ^ e = 2 ^ (e - t - 1) * (2 * 2 ^ t)) as Hsplit.
    { replace (2 * 2 ^ t) with (2 ^ (1 + t)) by (rewrite Z.pow_add_r by lia; done).
      rewrite <- Z.pow_add_r by lia. f_equal. lia. }
    assert (0 < 2 ^ (e - t - 1)) by (apply Z.pow_pos_nonneg; lia).
    assert (2 ^ 53 = 2 * 2 ^ 52) as H53 by done.
    set (m := round_half_even units (b * 2 ^ e)) in *. clearbody m.
    rewrite Hsplit. rewrite H53 in Hu. clear Hsplit H53 Hnorm Hle.
    generalize dependent (2 ^ (e - t - 1)). generalize dependent (2 ^ 52).
    generalize dependent (2 ^ t). intros pt Hpt p52 Hu Hm pd Hpd.
    assert (p52 ≤ m * pd) by nia.
    assert (u * pt ≤ 2 * p52 * pt) by nia.
    nia.
Qed.

(** ... and from above. *)
Lemma nearest_units_upper a b u t :
  0 < b → 0 ≤ u < 2 ^ 53 → 0 ≤ t →
  a * 2 ^ 1074 ≤ u * 2 ^ t * b →
  nearest_units a b ≤ u * 2 ^ t.
Proof.
  intros Hb Hu Ht Hle. unfold nearest_units.
  destruct (nearest_exponent (a * 2 ^ 1074) b) as [He Hnorm].
  set (units := a * 2 ^ 1074) in *. set (e := Z.max 0 _) in *.
  assert (0 < 2 ^ e) as Hpe by (by apply Z.pow_pos_nonneg).
  assert (0 < 2 ^ t) as Hpt by (by apply Z.pow_pos_nonneg).
  destruct (Z.le_gt_cases e t) as [Het|Het].
  - assert (2 ^ t = 2 ^ (t - e) * 2 ^ e) as Hsplit.
    { rewrite <- Z.pow_add_r by lia. f_equal. lia. }
    rewrite Hsplit, Z.mul_assoc. apply Z.mul_le_mono_nonneg_r; [lia|].
    apply round_half_even_upper; [nia|]. rewrite Hsplit in Hle. nia.
  - exfalso. specialize (Hnorm ltac:(lia) Hb).
    assert (2 ^ (52 + e) = 2 ^ (e - t - 1) * (2 * 2 ^ 52 * 2 ^ t)) as Hsplit.
    { replace (2 * 2 ^ 52 * 2 ^ t) with (2 ^ (53 + t))
        by (rewrite Z.pow_add_r by lia; done).
      rewrite <- Z.pow_add_r by lia. f_equal. lia. }
    assert (0 < 2 ^ (e - t - 1)) by (apply Z.pow_pos_nonneg; lia).
    assert (2 ^ 53 = 2 * 2 ^ 52) as H53 by done.
    rewrite Hsplit in Hnorm. rewrite H53 in Hu. clear Hsplit H53.
    generalize dependent (2 ^ (e - t - 1)). generalize dependent (2 ^ 52).
    generalize dependent (2 ^ t). intros pt Hle Hpt p52 Hu pd Hnorm Hpd.
    assert (pd * (2 * p52 * pt) * b ≤ u * pt * b) as Hc by lia.
    assert (pd * (2 * p52 * pt) ≤ u * pt) by nia.
    assert (0 < 2 * p52 * pt) by nia.
    assert (2 * p52 * pt ≤ pd * (2 * p52 * pt)) by nia.
    assert (u * pt < 2 * p52 * pt) by nia.
    lia.
Qed.

Lemma nearest_float_inv neg a b x :
  nearest_float neg a b = Ok x →
  f_neg x = neg ∧ float_magnitude x = nearest_units a b.
Proof.
  unfold nearest_float, nearest_units, float_magnitude.
  destruct (nearest_exponent (a * 2 ^ 1074) b) as [He _].
  set (units := a * 2 ^ 1074) in *. set (e := Z.max 0 _) in *.
  set (m := round_half_even units (b * 2 ^ e)).
  destruct (Z.eqb_spec m (2 ^ 53)) as [Hm|Hm].
  - destruct (971 <? e + 1 - 1074); [done|]. intros [= <-]. split; [done|].
    cbn [f_mant f_exp]. rewrite Hm.
    replace (e + 1 - 1074 + 1074) with (1 + e) by lia.
    rewrite Z.pow_add_r by lia. change (2 ^ 53) with (2 ^ 52 * 2 ^ 1). lia.
  - destruct (971 <? e - 1074); [done|]. intros [= <-]. split; [done|].
    cbn [f_mant f_exp]. by replace (e - 1074 + 1074) with e by lia.
Qed.

Lemma nearest_float_Raise neg a b err :
  nearest_float neg a b = Raise err → err = OverflowError.
Proof.
  unfold nearest_float.
  repeat match goal with
         | |- context [if ?b then _ else _] => destruct b
         | |- context [let '(_, _) := ?p in _] => destruct p
         end; congruence.
Qed.

Lemma nearest_float_Ok neg a b :
  0 ≤ a → 0 < b →
  nearest_units a b ≤ max_float * 2 ^ 1074 →
  ∃ x, nearest_float neg a b = Ok x.
Proof.
  intros Ha Hb. unfold nearest_float, nearest_units, max_float.
  destruct (nearest_exponent (a * 2 ^ 1074) b) as [He Hnorm].
  set (units := a * 2 ^ 1074) in *. set (e := Z.max 0 _) in *.
  set (m := round_half_even units (b * 2 ^ e)).
  assert (0 < 2 ^ e) as Hpe by (by apply Z.pow_pos_nonneg).
  replace ((2 ^ 53 - 1) * 2 ^ 971 * 2 ^ 1074) with ((2 ^ 53 - 1) * 2 ^ 2045)
    by (change (2 ^ 2045) with (2 ^ 971 * 2 ^ 1074); lia).
  intros Hmax.
  assert (0 < e → 2 ^ 52 ≤ m) as Hm52.
  { intros He0. apply round_half_even_lower; [nia|].
    specialize (Hnorm He0 Hb). rewrite Z.pow_add_r in Hnorm by lia. nia. }
  assert (0 < 2 ^ 52) as Hp52 by done.
  assert (2 ^ 53 = 2 * 2 ^ 52) as H53 by done.
  destruct (Z.eqb_spec m (2 ^ 53)) as [Hm|Hm].
  - assert (e < 2045) as Hlt.
    { apply (Z.pow_lt_mono_r_iff 2); [lia..|]. rewrite Hm in Hmax. nia. }
    assert ((971 <? e + 1 - 1074) = false) as -> by (apply Z.ltb_ge; lia). eauto.
  - assert (e < 2046) as Hlt.
    { destruct (Z.eq_dec e 0) as [->|]; [lia|].
      apply (Z.pow_lt_mono_r_iff 2); [lia..|].
      change (2 ^ 2046) with (2 * 2 ^ 2045). specialize (Hm52 ltac:(lia)).
      rewrite H53 in Hmax. generalize dependent (2 ^ 2045).
      generalize dependent (2 ^ 52). generalize dependent (2 ^ e). intros. nia. }
    assert ((971 <? e - 1074) = false) as -> by (apply Z.ltb_ge; lia). eauto.
Qed.

(** An integer that is exactly a float, seen in units. *)
Lemma exact_float_units z :
  exact_float z →
  ∃ u t, 0 ≤ u < 2 ^ 53 ∧ 0 ≤ t ∧ Z.abs z * 2 ^ 1074 = u * 2 ^ t ∧
         Z.abs z * 2 ^ 1074 ≤ max_float * 2 ^ 1074.
Proof.
  intros (u & t & Hu & Ht & Hz). exists u, (t + 1074).
  split_and!; try lia.
  - rewrite Z.pow_add_r by lia. rewrite Hz. lia.
  - apply Z.mul_le_mono_nonneg_r; [done|]. rewrite Hz. unfold max_float.
    assert (2 ^ t ≤ 2 ^ 971) by (apply Z.pow_le_mono_r; lia).
    assert (0 < 2 ^ t) by (apply Z.pow_pos_nonneg; lia).
    generalize dependent (2 ^ t). generalize dependent (2 ^ 971).
    generalize dependent (2 ^ 53). intros. nia.
Qed.

Lemma exact_float_small z : Z.abs z ≤ 2 ^ 53 → exact_float z.
Proof.
  intros Hz. destruct (Z.eq_dec (Z.abs z) (2 ^ 53)) as [Heq|Hne].
  - exists (2 ^ 52), 1. by rewrite Heq.
  - exists (Z.abs z), 0. split_and!; lia.
Qed.

Lemma exact_float_max : exact_float max_float ∧ exact_float (- max_float).
Proof.
  split; exists (2 ^ 53 - 1), 971; split_and!; try done;
    rewrite ?Z.abs_opp; by apply Z.abs_eq.
Qed.

(** A quotient between two integers that are floats rounds to a float
    between them, and rounding does not overflow. *)
Lemma nearest_float_between (neg : bool) a b L U :
  0 ≤ a → 0 < b → exact_float L → exact_float U →
  L * b ≤ (if neg then - a else a) ≤ U * b →
  ∃ x, nearest_float neg a b = Ok x ∧
       0 ≤ float_magnitude x ∧
       L * 2 ^ 1074 ≤ float_units x ≤ U * 2 ^ 1074.
Proof.
  intros Ha Hb (ul & tl & Hul & Htl & HL & HLmax)%exact_float_units
    (uu & tu & Huu & Htu & HU & HUmax)%exact_float_units Hab.
  pose proof (nearest_units_nonneg a b Ha Hb) as Hn0.
  pose proof (nearest_units_lower a b ul tl Hb Hul Htl) as Hlow_l.
  pose proof (nearest_units_upper a b ul tl Hb Hul Htl) as Hupp_l.
  pose proof (nearest_units_lower a b uu tu Hb Huu Htu) as Hlow_u.
  pose proof (nearest_units_upper a b uu tu Hb Huu Htu) as Hupp_u.
  rewrite <- HL in Hlow_l, Hupp_l. rewrite <- HU in Hlow_u, Hupp_u.
  clear HL HU Hul Huu Htl Htu.
  assert (0 < 2 ^ 1074) as Hp by done.
  assert (nearest_units a b ≤ max_float * 2 ^ 1074 ∧
          L * 2 ^ 1074 ≤ (if neg then - nearest_units a b else nearest_units a b)
            ≤ U * 2 ^ 1074) as (Hmax & Hbetween).
  { generalize dependent (2 ^ 1074). intros p HLmax HUmax Hlow_l Hupp_l Hlow_u Hupp_u Hp.
    destruct neg.
    - assert (L ≤ 0) by nia. assert (nearest_units a b ≤ Z.abs L * p) by (apply Hupp_l; nia).
      split; [lia|]. split; [nia|].
      destruct (Z.le_gt_cases 0 U); [nia|].
      assert (Z.abs U * p ≤ nearest_units a b) by (apply Hlow_u; nia). nia.
    - assert (0 ≤ U) by nia. assert (nearest_units a b ≤ Z.abs U * p) by (apply Hupp_u; nia).
      split; [lia|]. split; [|nia].
      destruct (Z.le_gt_cases L 0); [nia|].
      assert (Z.abs L * p ≤ nearest_units a b) by (apply Hlow_l; nia). nia. }
  destruct (nearest_float_Ok neg a b Ha Hb Hmax) as [x Hx].
  destruct (nearest_float_inv neg a b x Hx) as [Hneg Hmag].
  exists x. unfold float_units. rewrite Hneg, Hmag. done.
Qed.

Lemma py_truediv_between a b L U :
  0 < b → exact_float L → exact_float U →
  L * b ≤ a ≤ U * b →
  ∃ x, py_truediv a b = Ok x ∧
       0 ≤ float_magnitude x ∧
       L * 2 ^ 1074 ≤ float_units x ≤ U * 2 ^ 1074.
Proof.
  intros Hb HL HU Hab. unfold py_truediv.
  assert ((b =? 0) = false) as -> by (apply Z.eqb_neq; lia).
  assert ((b <? 0) = false) as -> by (apply Z.ltb_ge; lia).
  rewrite xorb_false_r, (Z.abs_eq b) by lia.
  apply nearest_float_between; [lia|done..|].
  destruct (Z.ltb_spec a 0); lia.
Qed.

Lemma py_round_2_between x L U :
  0 ≤ float_magnitude x → exact_float L → exact_float U →
  L * 2 ^ 1074 ≤ float_units x ≤ U * 2 ^ 1074 →
  ∃ y, py_round x 2 = Ok y ∧
       0 ≤ float_magnitude y ∧
       L * 2 ^ 1074 ≤ float_units y ≤ U * 2 ^ 1074.
Proof.
  intros Hx HL HU Hb. unfold py_round.
  change (323 <? 2) with false. change (10 ^ 2) with 100. cbv iota.
  assert (0 < 2 ^ 1074) as Hp by done.
  apply nearest_float_between; [|done..|].
  - apply round_half_even_lower; [done|lia].
  - unfold float_units in Hb.
    set (k := round_half_even (float_magnitude x * 100) (2 ^ 1074)).
    pose proof (λ c, round_half_even_lower (float_magnitude x * 100) (2 ^ 1074) c Hp) as Hlo.
    pose proof (λ c, round_half_even_upper (float_magnitude x * 100) (2 ^ 1074) c Hp) as Hup.
    fold k in Hlo, Hup. clearbody k. generalize dependent (2 ^ 1074). intros p Hb Hp Hlo Hup.
    destruct (f_neg x).
    + specialize (Hup (- L * 100) ltac:(lia)). specialize (Hlo (- U * 100) ltac:(lia)). lia.
    + specialize (Hlo (L * 100) ltac:(lia)). specialize (Hup (U * 100) ltac:(lia)). lia.
Qed.

End rounding.

(** ** [min], [max] and [sum] *)

Section aggregates.
Local Open Scope Z_scope.

Lemma foldl_min_spec l : ∀ x,
  foldl Z.min x l ∈ x :: l ∧ Forall (λ v, foldl Z.min x l ≤ v) (x :: l).
Proof.
  induction l as [|y l IH]; intros x; simpl.
  - split; [left|]. by repeat constructor.
  - destruct (IH (Z.min x y)) as [Hin Hall].
    apply Forall_cons in Hall as [Hxy Hall]. split.
    + apply elem_of_cons in Hin as [Hin|Hin]; [|by do 2 right].
      rewrite Hin. destruct (Z.min_spec x y) as [[_ ->]|[_ ->]]; [left|right; left].
    + repeat constructor; [lia..|done].
Qed.

Lemma foldl_max_spec l : ∀ x,
  foldl Z.max x l ∈ x :: l ∧ Forall (λ v, v ≤ foldl Z.max x l) (x :: l).
Proof.
  induction l as [|y l IH]; intros x; simpl.
  - split; [left|]. by repeat constructor.
  - destruct (IH (Z.max x y)) as [Hin Hall].
    apply Forall_cons in Hall as [Hxy Hall]. split.
    + apply elem_of_cons in Hin as [Hin|Hin]; [|by do 2 right].
      rewrite Hin. destruct (Z.max_spec x y) as [[_ ->]|[_ ->]]; [right; left|left].
    + repeat constructor; [lia..|done].
Qed.

Lemma py_min_Ok l m : py_min l = Ok m → m ∈ l ∧ Forall (λ v, m ≤ v) l.
Proof. destruct l as [|x l]; [done|]. intros [= <-]. apply foldl_min_spec. Qed.

Lemma py_max_Ok l m : py_max l = Ok m → m ∈ l ∧ Forall (λ v, v ≤ m) l.
Proof. destruct l as [|x l]; [done|]. intros [= <-]. apply foldl_max_spec. Qed.

Lemma foldl_add_bounds l L U : ∀ acc,
  Forall (λ v, L ≤ v ≤ U) l →
  acc + Z.of_nat (length l) * L ≤ foldl Z.add acc l ≤ acc + Z.of_nat (length l) * U.
Proof.
  induction l as [|y l IH]; intros acc Hall; simpl; [lia|].
  apply Forall_cons in Hall as [Hy Hall]. specialize (IH (acc + y) Hall). lia.
Qed.

Lemma py_sum_bounds l L U :
  Forall (λ v, L ≤ v ≤ U) l →
  L * Z.of_nat (length l) ≤ py_sum l ≤ U * Z.of_nat (length l).
Proof.
  intros Hall. pose proof (foldl_add_bounds l L U 0 Hall). unfold py_sum. lia.
Qed.

(** ** The record of one department *)

Lemma department_record_inv salaries r :
  department_record salaries = Ok r →
  salaries ≠ [] ∧
  py_min salaries = Ok (min_salary r) ∧
  py_max salaries = Ok (max_salary r) ∧
  head_count r = Z.of_nat (length salaries) ∧
  ∃ mean, py_truediv (py_sum salaries) (head_count r) = Ok mean ∧
          py_round mean 2 = Ok (mean_salary r).
Proof.
  unfold department_record.
  intros (lo & Hlo & (hi & Hhi & (mean & Hmean & (rounded & Hr & [= <-])%bind_Ok)
    %bind_Ok)%bind_Ok)%bind_Ok.
  split_and!; [by intros ->|done..|]. by exists mean.
Qed.

Lemma department_record_Raise salaries err :
  department_record salaries = Raise err →
  (salaries = [] ∧ err = ValueError EmptySequence) ∨
  (salaries ≠ [] ∧ err = OverflowError).
Proof.
  unfold department_record. destruct salaries as [|v salaries].
  - intros [= <-]. by left.
  - intros Hrun. right. split; [done|]. revert Hrun. simpl py_min. simpl py_max.
    cbn [mbind result_bind]. unfold py_truediv.
    assert ((Z.of_nat (length (v :: salaries)) =? 0) = false) as ->
      by (apply Z.eqb_neq; simpl; lia).
    destruct (nearest_float _ _ _) as [mean|e] eqn:Hmean; simpl.
    + unfold py_round. change (323 <? 2) with false. cbv iota.
      destruct (nearest_float _ _ _) as [rounded|e] eqn:Hrounded at 1; simpl; [done|].
      intros [= <-]. by eapply nearest_float_Raise.
    + intros [= <-]. by eapply nearest_float_Raise.
Qed.

Lemma department_record_between salaries L U :
  salaries ≠ [] → exact_float L → exact_float U →
  Forall (λ v, L ≤ v ≤ U) salaries →
  ∃ r, department_record salaries = Ok r ∧
       L * 2 ^ 1074 ≤ float_units (mean_salary r) ≤ U * 2 ^ 1074.
Proof.
  intros Hne HL HU Hall. unfold department_record.
  destruct salaries as [|v salaries]; [done|]. simpl py_min. simpl py_max.
  cbn [mbind result_bind].
  set (l := v :: salaries) in *.
  destruct (py_truediv_between (py_sum l) (Z.of_nat (length l)) L U)
    as (mean & -> & Hmag & Hmean); [simpl; lia|done..|by apply py_sum_bounds|].
  cbn [mbind result_bind].
  destruct (py_round_2_between mean L U) as (rounded & -> & _ & Hrounded); [done..|].
  cbn [mbind result_bind]. eauto.
Qed.

End aggregates.

(** ** The two loops of the aggregator *)

Lemma salaries_of_cons d v departments values k :
  salaries_of (d :: departments) (v :: values) k =
  (if decide (d = k) then [v] else []) ++ salaries_of departments values k.
Proof.
  unfold salaries_of. simpl. rewrite filter_cons. simpl.
  by destruct (decide (d = k)).
Qed.

(** The first loop either groups every salary under its department or
    stops at the first cell that [int] rejects. *)
Lemma add_salary_run departments : ∀ salaries (acc : dict (list Z)),
  length departments = length salaries →
  (∀ d, d ∈ departments → d ∈ dict_keys acc) →
  match for_each add_salary acc (zip departments salaries) with
  | Ok acc' =>
      ∃ values,
        Forall2 (λ cell v, int_literal cell = Some v) salaries values ∧
        dict_keys acc' = dict_keys acc ∧
        ∀ k l, dict_get acc k = Ok l →
               dict_get acc' k = Ok (l ++ salaries_of departments values k)
  | Raise err =>
      ∃ cell, err = ValueError (InvalidLiteral cell) ∧
              cell ∈ salaries ∧ int_literal cell = None
  end.
Proof.
  induction departments as [|d departments IH]; intros [|cell salaries] acc Hlen Hkeys;
    try done; simpl.
  - exists []. split_and!; [constructor|done|]. intros k l ->.
    unfold salaries_of. simpl. by rewrite app_nil_r.
  - destruct (dict_get_is_Ok acc d) as [l0 Hl0]; [apply Hkeys; left|].
    rewrite Hl0. simpl. unfold int.
    destruct (int_literal cell) as [v|] eqn:Hcell; simpl.
    + specialize (IH salaries (dict_set acc d (l0 ++ [v]))).
      destruct (for_each add_salary _ (zip departments salaries)) as [acc'|err].
      * destruct IH as (values & Hvalues & Hk & Hget).
        { simpl in Hlen. lia. }
        { intros d' Hd'. rewrite dict_set_present; [|apply Hkeys; left].
          apply Hkeys. by right. }
        exists (v :: values). split_and!; [by constructor| |].
        -- rewrite Hk. apply dict_set_present, Hkeys. left.
        -- intros k l Hl. rewrite salaries_of_cons, (assoc_L (++)).
           apply Hget. rewrite dict_get_set.
           destruct (decide (d = k)) as [->|]; [|by rewrite app_nil_r].
           congruence.
      * destruct IH as (cell' & -> & Hin & Hnone).
        { simpl in Hlen. lia. }
        { intros d' Hd'. rewrite dict_set_present; [|apply Hkeys; left].
          apply Hkeys. by right. }
        exists cell'. split_and!; [done|by right|done].
    + exists cell. split_and!; [done|left|done].
Qed.

(** The second loop builds one record per item, or stops at the first
    item whose record raises. *)
Lemma add_record_run items : ∀ report : dict department_report,
  NoDup (dict_keys report ++ items.*1) →
  match for_each add_record report items with
  | Ok report' =>
      ∃ records,
        Forall2 (λ it r, department_record it.2 = Ok r) items records ∧
        report' = report ++ zip items.*1 records
  | Raise err => ∃ it, it ∈ items ∧ department_record it.2 = Raise err
  end.
Proof.
  induction items as [|[d l] items IH]; intros report Hnd; simpl.
  - exists []. split; [constructor|]. by rewrite app_nil_r.
  - destruct (department_record l) as [r|err] eqn:Hr; simpl.
    + assert (d ∉ dict_keys report) as Hd.
      { apply NoDup_app in Hnd as (_ & Hd & _). intros ?. eapply Hd; [done|left]. }
      rewrite dict_set_fresh by done. specialize (IH (report ++ [(d, r)])).
      destruct (for_each add_record _ items) as [report'|err].
      * destruct IH as (records & Hrecords & ->).
        { unfold dict_keys. rewrite fmap_app, <- app_assoc. done. }
        exists (r :: records). split; [by constructor|].
        by rewrite <- app_assoc.
      * destruct IH as (it & Hin & Hit).
        { unfold dict_keys. rewrite fmap_app, <- app_assoc. done. }
        exists it. split; [by right|done].
    + exists (d, l). split; [left|done].
Qed.

(** The grouping, for a table with a second column and a last column
    of the same length. *)
Lemma salaries_by_departments_run (content : dict (list string))
    k1 departments kl salaries :
  NoDup (dict_keys content) →
  content !! 1 = Some (k1, departments) →
  last content = Some (kl, salaries) →
  length departments = length salaries →
  match salaries_by_departments content with
  | Ok grouped =>
      ∃ values,
        Forall2 (λ cell v, int_literal cell = Some v) salaries values ∧
        grouped = (λ d, (d, salaries_of departments values d)) <$> sorted_set departments
  | Raise err =>
      ∃ cell, err = ValueError (InvalidLiteral cell) ∧
              cell ∈ salaries ∧ int_literal cell = None
  end.
Proof.
  intros Hnd H1 Hlast Hlen. unfold salaries_by_departments.
  pose proof (column_at_lookup content 1 k1 departments Hnd H1) as Hc1.
  change (Z.of_nat 1) with 1%Z in Hc1.
  rewrite Hc1, (column_at_last content kl salaries Hnd Hlast). simpl.
  pose proof (add_salary_run departments salaries
                (dict_fromkeys (sorted_set departments) []) Hlen) as Hrun.
  destruct (for_each add_salary _ _) as [grouped|err].
  - destruct Hrun as (values & Hvalues & Hk & Hget).
    { intros d Hd. by apply dict_fromkeys_elem, sorted_set_elem. }
    exists values. split; [done|].
    rewrite dict_fromkeys_keys in Hk by apply sorted_set_NoDup.
    rewrite <- Hk. apply dict_items.
    + rewrite Hk. apply sorted_set_NoDup.
    + intros k Hkin. apply (Hget k []). apply dict_fromkeys_get. by rewrite <- Hk.
  - apply Hrun. intros d Hd. by apply dict_fromkeys_elem, sorted_set_elem.
Qed.

Lemma salaries_of_nonempty departments values d :
  length departments = length values →
  d ∈ departments → salaries_of departments values d ≠ [].
Proof.
  revert values. induction departments as [|d' departments IH];
    intros [|v values] Hlen Hd; try done.
  - by apply elem_of_nil in Hd.
  - rewrite salaries_of_cons. destruct (decide (d' = d)) as [|Hne]; [done|].
    simpl. apply IH; [simpl in Hlen; lia|].
    apply elem_of_cons in Hd as [->|]; done.
Qed.

Lemma salaries_of_length departments values d :
  length departments = length values →
  length (salaries_of departments values d) = length (filter (λ d', d' = d) departments).
Proof.
  revert values. induction departments as [|d' departments IH];
    intros [|v values] Hlen; try done.
  rewrite salaries_of_cons, length_app, filter_cons, IH by (simpl in Hlen; lia).
  by destruct (decide (d' = d)).
Qed.

Lemma salaries_of_elem departments values d v :
  v ∈ salaries_of departments values d → v ∈ values.
Proof.
  unfold salaries_of. intros ([d' v'] & -> & [_ Hin]%list_elem_of_filter)%list_elem_of_fmap.
  by apply elem_of_zip_r in Hin.
Qed.

(** ** The report of a table *)

(** The outcomes of the aggregation on a table with a second column and
    a last column of the same length: a report with one record per
    distinct department, in sorted order; or the [ValueError] of a cell
    that [int] rejects; or the [OverflowError] of a mean too large for a
    float. *)
Lemma reports_of_table_run (content : dict (list string))
    k1 departments kl salaries :
  NoDup (dict_keys content) →
  content !! 1 = Some (k1, departments) →
  last content = Some (kl, salaries) →
  length departments = length salaries →
  match reports_of_table content with
  | Ok report =>
      ∃ values records,
        Forall2 (λ cell v, int_literal cell = Some v) salaries values ∧
        Forall2 (λ d r, department_record (salaries_of departments values d) = Ok r)
                (sorted_set departments) records ∧
        report = zip (sorted_set departments) records
  | Raise err =>
      (∃ cell, err = ValueError (InvalidLiteral cell) ∧
               cell ∈ salaries ∧ int_literal cell = None) ∨
      (err = OverflowError ∧
       ∃ values d,
         Forall2 (λ cell v, int_literal cell = Some v) salaries values ∧
         d ∈ departments ∧
         department_record (salaries_of departments values d) = Raise OverflowError)
  end.
Proof.
  intros Hnd H1 Hlast Hlen. unfold reports_of_table.
  pose proof (salaries_by_departments_run content k1 departments kl salaries
                Hnd H1 Hlast Hlen) as Hgroup.
  destruct (salaries_by_departments content) as [grouped|err]; simpl; [|by left].
  destruct Hgroup as (values & Hvalues & ->).
  set (items := (λ d, (d, salaries_of departments values d)) <$> sorted_set departments).
  assert (items.*1 = sorted_set departments) as Hitems.
  { unfold items. rewrite <- list_fmap_compose. apply list_fmap_id. }
  pose proof (add_record_run items []) as Hrun. simpl in Hrun. rewrite Hitems in Hrun.
  specialize (Hrun (sorted_set_NoDup _)).
  destruct (for_each add_record [] items) as [report|err].
  - destruct Hrun as (records & Hrecords & ->).
    exists values, records. split_and!; [done| |done].
    unfold items in Hrecords. by apply Forall2_fmap_l in Hrecords.
  - destruct Hrun as ([d l] & Hin & Hraise). right.
    apply list_elem_of_fmap in Hin as (d' & [= -> ->] & Hd').
    rewrite sorted_set_elem in Hd'. simpl in Hraise.
    destruct (department_record_Raise _ _ Hraise) as [[Hnil _]|[_ ->]].
    + exfalso. revert Hnil. apply salaries_of_nonempty; [|done].
      apply Forall2_length in Hvalues. lia.
    + split; [done|]. by exists values, d'.
Qed.

(** A table with fewer than two columns has no department column. *)
Lemma reports_of_table_short (content : dict (list string)) :
  content !! 1 = None → reports_of_table content = Raise IndexError.
Proof.
  intros Hnone. unfold reports_of_table, salaries_by_departments.
  pose proof (column_at_short content 1) as Hshort.
  change (Z.of_nat 1) with 1%Z in Hshort.
  rewrite Hshort; [done|]. by apply lookup_ge_None.
Qed.

(** In a table with a second column and columns of one length, the
    second and the last column have that length. *)
Lemma table_columns (content : dict (list string)) (n : nat) k1 departments :
  Forall (λ kv, length kv.2 = n) content →
  content !! 1 = Some (k1, departments) →
  length departments = n ∧
  ∃ kl salaries, last content = Some (kl, salaries) ∧ length salaries = n.
Proof.
  intros Hall H1. rewrite Forall_forall in Hall. split.
  - apply (Hall (k1, departments)). by eapply list_elem_of_lookup_2.
  - destruct (last content) as [[kl salaries]|] eqn:Hlast.
    + exists kl, salaries. split; [done|].
      apply (Hall (kl, salaries)). apply last_Some in Hlast as [c ->].
      apply elem_of_app. right. left.
    + apply last_None in Hlast. by subst content.
Qed.

(** C9. For the table loaded from a file, with all columns of one
    length, every salary list of the accumulator built by the first
    loop of [get_reports] is non-empty when the second loop starts, and
    [get_reports] raises neither the [ValueError] of [min]/[max] on an
    empty sequence nor [ZeroDivisionError]. *)
Theorem get_reports_groups_nonempty (fs : filesystem) (file : string)
    (content : dict (list string)) (n : nat) :
  get_data fs file = Ok content →
  Forall (λ kv, length kv.2 = n) content →
  (∀ grouped, salaries_by_departments content = Ok grouped →
              Forall (λ it, it.2 ≠ []) grouped) ∧
  get_reports fs file ≠ Raise (ValueError EmptySequence) ∧
  get_reports fs file ≠ Raise ZeroDivisionError.
Proof.
  intros Hdata Hall. pose proof (get_data_NoDup fs file content Hdata) as Hnd.
  unfold get_reports. rewrite Hdata. simpl.
  destruct (content !! 1) as [[k1 departments]|] eqn:H1.
  - destruct (table_columns content n k1 departments Hall H1)
      as (Hd & kl & salaries & Hlast & Hs).
    assert (length departments = length salaries) as Hlen by lia.
    split_and!.
    + intros grouped Hgrouped.
      pose proof (salaries_by_departments_run content k1 departments kl salaries
                    Hnd H1 Hlast Hlen) as Hrun.
      rewrite Hgrouped in Hrun. destruct Hrun as (values & Hvalues & ->).
      apply Forall_fmap, Forall_forall. intros d Hd'. simpl.
      apply salaries_of_nonempty; [|by apply sorted_set_elem].
      apply Forall2_length in Hvalues. lia.
    + pose proof (reports_of_table_run content k1 departments kl salaries
                    Hnd H1 Hlast Hlen) as Hrun.
      destruct (reports_of_table content) as [report|err]; [done|].
      destruct Hrun as [(cell & -> & _)|[-> _]]; done.
    + pose proof (reports_of_table_run content k1 departments kl salaries
                    Hnd H1 Hlast Hlen) as Hrun.
      destruct (reports_of_table content) as [report|err]; [done|].
      destruct Hrun as [(cell & -> & _)|[-> _]]; done.
  - split_and!.
    + intros grouped. unfold salaries_by_departments.
      pose proof (column_at_short content 1) as Hshort.
      change (Z.of_nat 1) with 1%Z in Hshort.
      rewrite Hshort; [done|]. by apply lookup_ge_None.
    + by rewrite reports_of_table_short.
    + by rewrite reports_of_table_short.
Qed.

Lemma get_reports_groups_nonempty_witness :
  (∀ grouped,
     salaries_by_departments
       [("id", ["1"; "2"; "3"]); ("dept", ["A"; "A"; "B"]);
        ("team", ["X"; "Y"; "Z"]); ("salary", ["100"; "300"; "200"])] = Ok grouped →
     Forall (λ it, it.2 ≠ []) grouped) ∧
  get_reports example_fs "staff" ≠ Raise (ValueError EmptySequence) ∧
  get_reports example_fs "staff" ≠ Raise ZeroDivisionError.
Proof.
  apply (get_reports_groups_nonempty example_fs "staff" _ 3).
  - reflexivity.
  - repeat constructor.
Defined.



(** ** Head counts *)

Section head_counts.
Local Open Scope Z_scope.

Lemma foldl_add_acc l : ∀ acc, foldl Z.add acc l = acc + py_sum l.
Proof.
  unfold py_sum. induction l as [|x l IH]; intros acc; simpl; [lia|].
  rewrite (IH (acc + x)), (IH (0 + x)). lia.
Qed.

Lemma py_sum_cons x l : py_sum (x :: l) = x + py_sum l.
Proof. unfold py_sum at 1. simpl. apply foldl_add_acc. Qed.

Lemma py_sum_indicator_absent (d : string) ks :
  d ∉ ks → py_sum ((λ k, if decide (d = k) then 1 else 0) <$> ks) = 0.
Proof.
  induction ks as [|k ks IH]; intros Hnin; csimpl; [done|].
  apply not_elem_of_cons in Hnin as [Hne Hnin].
  rewrite py_sum_cons, IH by done. by rewrite decide_False.
Qed.

Lemma py_sum_indicator (d : string) ks :
  NoDup ks → d ∈ ks → py_sum ((λ k, if decide (d = k) then 1 else 0) <$> ks) = 1.
Proof.
  induction ks as [|k ks IH]; intros Hnd Hin; csimpl.
  - by apply elem_of_nil in Hin.
  - apply NoDup_cons in Hnd as [Hnin Hnd]. rewrite py_sum_cons.
    destruct (decide (d = k)) as [->|Hne].
    + by rewrite py_sum_indicator_absent.
    + rewrite IH; [done..|]. apply elem_of_cons in Hin as [?|?]; done.
Qed.

Lemma py_sum_fmap_add {A : Type} (f g : A → Z) l :
  py_sum ((λ x, f x + g x) <$> l) = py_sum (f <$> l) + py_sum (g <$> l).
Proof.
  induction l as [|x l IH]; csimpl; [done|]. rewrite !py_sum_cons, IH. lia.
Qed.

(** Every row is counted under exactly one of the distinct departments. *)
Lemma py_sum_salaries_of_length ks departments : ∀ values,
  NoDup ks → (∀ d, d ∈ departments → d ∈ ks) →
  length departments = length values →
  py_sum ((λ k, Z.of_nat (length (salaries_of departments values k))) <$> ks) =
  Z.of_nat (length departments).
Proof.
  induction departments as [|d departments IH]; intros [|v values] Hnd Hin Hlen;
    try done.
  - simpl. clear. induction ks as [|k ks IHks]; csimpl; [done|].
    by rewrite py_sum_cons, IHks.
  - erewrite (list_fmap_ext _ (λ k, (if decide (d = k) then 1 else 0) +
                Z.of_nat (length (salaries_of departments values k)))).
    + rewrite py_sum_fmap_add, py_sum_indicator, IH; simpl in *; try done; try lia.
      * intros d' Hd'. apply Hin. by right.
      * apply Hin. left.
    + intros i k _. rewrite salaries_of_cons, length_app.
      destruct (decide (d = k)); simpl; lia.
Qed.

End head_counts.

Lemma dict_get_zip {V : Type} (P : string → V → Prop) ks : ∀ (vs : list V) k,
  Forall2 P ks vs → k ∈ ks → ∃ v, dict_get (zip ks vs) k = Ok v ∧ P k v.
Proof.
  induction ks as [|k0 ks IH]; intros vs k Hall Hk.
  - by apply elem_of_nil in Hk.
  - destruct vs as [|v vs]; [by apply Forall2_length in Hall|].
    apply Forall2_cons in Hall as [Hv Hall]. simpl.
    destruct (decide (k0 = k)) as [->|Hne]; [eauto|].
    apply IH; [done|]. apply elem_of_cons in Hk as [?|?]; done.
Qed.

(** C5. For the table loaded from a file, with all columns of length
    [n]: in the report that [get_reports] returns, the head counts of
    the departments add up to [n], the number of data rows.  (A
    returned report implies that every salary cell was parsed.) *)
Theorem get_reports_head_counts (fs : filesystem) (file : string)
    (content : dict (list string)) (n : nat)
    (report : dict department_report) :
  get_data fs file = Ok content →
  Forall (λ kv, length kv.2 = n) content →
  get_reports fs file = Ok report →
  total_head_count report = Z.of_nat n.
Proof.
  intros Hdata Hall. unfold get_reports. rewrite Hdata. simpl. intros Hreport.
  pose proof (get_data_NoDup fs file content Hdata) as Hnd.
  destruct (content !! 1) as [[k1 departments]|] eqn:H1;
    [|by rewrite reports_of_table_short in Hreport].
  destruct (table_columns content n k1 departments Hall H1)
    as (Hd & kl & salaries & Hlast & Hs).
  pose proof (reports_of_table_run content k1 departments kl salaries
                Hnd H1 Hlast ltac:(lia)) as Hrun.
  rewrite Hreport in Hrun. destruct Hrun as (values & records & Hvalues & Hrecords & ->).
  unfold total_head_count.
  rewrite snd_zip by (apply Forall2_length in Hrecords; lia).
  assert (head_count <$> records =
          (λ k, Z.of_nat (length (salaries_of departments values k)))
            <$> sorted_set departments) as ->.
  { clear -Hrecords. induction Hrecords as [|d r ds rs Hr _ IH]; csimpl; [done|].
    rewrite IH. f_equal. by apply department_record_inv in Hr as (_ & _ & _ & -> & _). }
  rewrite py_sum_salaries_of_length.
  - by rewrite Hd.
  - apply sorted_set_NoDup.
  - intros d. apply sorted_set_elem.
  - apply Forall2_length in Hvalues. lia.
Qed.

Lemma get_reports_head_counts_witness :
  ∃ report, get_reports example_fs "staff" = Ok report ∧ total_head_count report = 3%Z.
Proof.
  eexists. split; [vm_compute; reflexivity|].
  apply (get_reports_head_counts example_fs "staff"
           [("id", ["1"; "2"; "3"]); ("dept", ["A"; "A"; "B"]);
            ("team", ["X"; "Y"; "Z"]); ("salary", ["100"; "300"; "200"])]
           3).
  - reflexivity.
  - repeat constructor.
  - vm_compute. reflexivity.
Defined.

(** ** The records of the report *)

(** Whatever the table, a record of the report was computed from some
    list of salaries. *)
Lemma add_record_source items : ∀ (report report' : dict department_report) d r,
  for_each add_record report items = Ok report' →
  dict_get report' d = Ok r →
  dict_get report d = Ok r ∨ ∃ l, department_record l = Ok r.
Proof.
  induction items as [|[d0 l0] items IH]; intros report report' d r; simpl.
  - intros [= <-]. by left.
  - intros (report1 & (r0 & Hr0 & [= <-])%bind_Ok & Hrun)%bind_Ok Hget.
    destruct (IH _ _ _ _ Hrun Hget) as [Hget1|?]; [|by right].
    rewrite dict_get_set in Hget1. destruct (decide (d0 = d)); [|by left].
    right. exists l0. congruence.
Qed.

Lemma get_reports_record_source fs file report d r :
  get_reports fs file = Ok report →
  dict_get report d = Ok r →
  ∃ l, department_record l = Ok r.
Proof.
  unfold get_reports, reports_of_table.
  intros (content & _ & (grouped & _ & Hrun)%bind_Ok)%bind_Ok Hget.
  by destruct (add_record_source _ _ _ _ _ Hrun Hget).
Qed.

(** C6 (as amended). For every department record of a returned report
    whose minimum and maximum salary are at most [2^53] in magnitude,
    the rounded mean lies between the minimum and the maximum; and when
    the head count is 1, the minimum, the maximum and the mean are
    equal. *)
Theorem get_reports_mean_between (fs : filesystem) (file : string)
    (report : dict department_report) (d : string) (r : department_report) :
  get_reports fs file = Ok report →
  dict_get report d = Ok r →
  (Z.abs (min_salary r) ≤ 2 ^ 53)%Z →
  (Z.abs (max_salary r) ≤ 2 ^ 53)%Z →
  int_le_float (min_salary r) (mean_salary r) ∧
  float_le_int (mean_salary r) (max_salary r) ∧
  (head_count r = 1%Z →
   min_salary r = max_salary r ∧ float_eq_int (mean_salary r) (min_salary r)).
Proof.
  intros Hreport Hget Hmin Hmax.
  destruct (get_reports_record_source fs file report d r Hreport Hget) as [l Hr].
  destruct (department_record_inv l r Hr) as (Hne & Hlo & Hhi & Hcount & _).
  apply py_min_Ok in Hlo as [Hlo_in Hlo]. apply py_max_Ok in Hhi as [Hhi_in Hhi].
  destruct (department_record_between l (min_salary r) (max_salary r))
    as (r' & Hr' & Hbetween); [done|by apply exact_float_small..| |].
  { rewrite Forall_forall in Hlo, Hhi. apply Forall_forall. intros v Hv.
    split; [by apply Hlo|by apply Hhi]. }
  assert (r' = r) as -> by congruence.
  unfold int_le_float, float_le_int, float_eq_int. split_and!; [lia..|].
  intros Hone. rewrite Hone in Hcount.
  destruct l as [|v [|v' l]]; simpl in Hcount; try lia.
  apply list_elem_of_singleton in Hlo_in, Hhi_in. split; [congruence|].
  rewrite Hlo_in, Hhi_in in Hbetween. rewrite Hlo_in. lia.
Qed.

Lemma get_reports_mean_between_witness :
  ∃ r, dict_get
         [("A", DepartmentReport 100 300 2 (PyFloat false 7036874417766400 (-45)));
          ("B", DepartmentReport 200 200 1 (PyFloat false 7036874417766400 (-45)))]
         "A" = Ok r ∧
       int_le_float (min_salary r) (mean_salary r) ∧
       float_le_int (mean_salary r) (max_salary r) ∧
       (head_count r = 1%Z →
        min_salary r = max_salary r ∧ float_eq_int (mean_salary r) (min_salary r)).
Proof.
  eexists. split; [reflexivity|].
  eapply (get_reports_mean_between example_fs "staff" _ "A").
  - vm_compute. reflexivity.
  - reflexivity.
  - simpl. lia.
  - simpl. lia.
Defined.

(** C6, as stated, fails: one employee with the salary [2^53 + 1] gives
    the mean [2^53], which is below the minimum salary and differs from
    the single salary. *)
Lemma get_reports_mean_below_min :
  get_reports large_fs "large" =
    Ok [("A", DepartmentReport 9007199254740993 9007199254740993 1
                (PyFloat false 4503599627370496 1))] ∧
  ¬ int_le_float 9007199254740993 (PyFloat false 4503599627370496 1) ∧
  ¬ float_eq_int (PyFloat false 4503599627370496 1) 9007199254740993.
Proof.
  split_and!.
  - vm_compute. reflexivity.
  - vm_compute. intros H. by apply H.
  - vm_compute. discriminate.
Qed.

Lemma int_literals_unique salaries : ∀ values values',
  Forall2 (λ cell v, int_literal cell = Some v) salaries values →
  Forall2 (λ cell v, int_literal cell = Some v) salaries values' →
  values = values'.
Proof.
  induction salaries as [|cell salaries IH]; intros values values' H1 H2.
  - apply Forall2_nil_inv_l in H1, H2. congruence.
  - apply Forall2_cons_inv_l in H1 as (v & vs & Hv & Hvs & ->).
    apply Forall2_cons_inv_l in H2 as (v' & vs' & Hv' & Hvs' & ->).
    f_equal; [congruence|by apply IH].
Qed.

(** C1 (as amended). For the table loaded from a file, with all columns
    of one length, the departments in its second column and the salaries
    in its last column, when [int] accepts every salary cell and no
    salary exceeds the largest finite float in magnitude: [get_reports]
    returns a mapping whose keys are exactly the distinct departments,
    and the record of each department has the minimum and the maximum
    of the department's parsed salaries, the number of its rows as head
    count, and as mean the sum divided by the head count (correctly
    rounded to a float) and then rounded to 2 decimals. *)
Theorem get_reports_report (fs : filesystem) (file : string)
    (content : dict (list string)) (n : nat)
    (k1 kl : string) (departments salaries : list string) (values : list Z) :
  get_data fs file = Ok content →
  Forall (λ kv, length kv.2 = n) content →
  content !! 1 = Some (k1, departments) →
  last content = Some (kl, salaries) →
  Forall2 (λ cell v, int_literal cell = Some v ∧ (Z.abs v ≤ max_float)%Z)
          salaries values →
  ∃ report,
    get_reports fs file = Ok report ∧
    NoDup (dict_keys report) ∧
    (∀ d, d ∈ dict_keys report ↔ d ∈ departments) ∧
    ∀ d, d ∈ departments →
      ∃ r mean,
        dict_get report d = Ok r ∧
        min_salary r ∈ salaries_of departments values d ∧
        (∀ v, v ∈ salaries_of departments values d → (min_salary r ≤ v)%Z) ∧
        max_salary r ∈ salaries_of departments values d ∧
        (∀ v, v ∈ salaries_of departments values d → (v ≤ max_salary r)%Z) ∧
        head_count r = Z.of_nat (length (filter (λ d', d' = d) departments)) ∧
        py_truediv (py_sum (salaries_of departments values d)) (head_count r) = Ok mean ∧
        py_round mean 2 = Ok (mean_salary r).
Proof.
  intros Hdata Hall H1 Hlast Hcells.
  pose proof (get_data_NoDup fs file content Hdata) as Hnd.
  destruct (table_columns content n k1 departments Hall H1)
    as (Hd & kl' & salaries' & Hlast' & Hs).
  rewrite Hlast in Hlast'. injection Hlast' as <- <-.
  assert (Forall2 (λ cell v, int_literal cell = Some v) salaries values) as Hvalues.
  { eapply Forall2_impl; [done|]. by intros ?? [? _]. }
  assert (Forall (λ v, - max_float ≤ v ≤ max_float)%Z values) as Hbound.
  { eapply Forall2_Forall_r; [exact Hcells|]. apply Forall_forall.
    intros cell _ v [_ Hv]. lia. }
  assert (length departments = length values) as Hlen.
  { apply Forall2_length in Hvalues. lia. }
  pose proof (reports_of_table_run content k1 departments kl salaries
                Hnd H1 Hlast ltac:(lia)) as Hrun.
  unfold get_reports. rewrite Hdata. simpl.
  destruct (reports_of_table content) as [report|err].
  - destruct Hrun as (values0 & records & Hvalues0 & Hrecords & ->).
    rewrite (int_literals_unique _ _ _ Hvalues0 Hvalues) in Hrecords.
    assert (dict_keys (zip (sorted_set departments) records) = sorted_set departments)
      as Hkeys.
    { apply fst_zip. apply Forall2_length in Hrecords. lia. }
    eexists. split_and!; [done| | |].
    + rewrite Hkeys. apply sorted_set_NoDup.
    + intros d. rewrite Hkeys. apply sorted_set_elem.
    + intros d Hin.
      destruct (dict_get_zip _ _ _ d Hrecords) as (r & Hget & Hr);
        [by apply sorted_set_elem|].
      destruct (department_record_inv _ r Hr)
        as (_ & Hlo & Hhi & Hcount & mean & Hmean & Hround).
      apply py_min_Ok in Hlo as [Hlo_in Hlo]. apply py_max_Ok in Hhi as [Hhi_in Hhi].
      rewrite Forall_forall in Hlo, Hhi.
      exists r, mean. split_and!; try done.
      by rewrite Hcount, salaries_of_length.
  - exfalso. destruct Hrun as [(cell & _ & Hin & Hnone)|(_ & values0 & d & Hvalues0 & Hin & Hraise)].
    + apply list_elem_of_lookup_1 in Hin as [i Hi].
      destruct (Forall2_lookup_l _ _ _ _ _ Hvalues Hi) as (v & _ & Hv). congruence.
    + rewrite (int_literals_unique _ _ _ Hvalues0 Hvalues) in Hraise.
      destruct (department_record_between (salaries_of departments values d)
                  (- max_float) max_float) as (r & Hr & _);
        [by apply salaries_of_nonempty|apply exact_float_max..| |congruence].
      apply Forall_forall. intros v Hv%salaries_of_elem.
      rewrite Forall_forall in Hbound. by apply Hbound.
Qed.

Lemma get_reports_report_witness :
  ∃ report,
    get_reports example_fs "staff" = Ok report ∧
    NoDup (dict_keys report) ∧
    (∀ d, d ∈ dict_keys report ↔ d ∈ ["A"; "A"; "B"]) ∧
    ∀ d, d ∈ ["A"; "A"; "B"] →
      ∃ r mean,
        dict_get report d = Ok r ∧
        min_salary r ∈ salaries_of ["A"; "A"; "B"] [100; 300; 200]%Z d ∧
        (∀ v, v ∈ salaries_of ["A"; "A"; "B"] [100; 300; 200]%Z d → (min_salary r ≤ v)%Z) ∧
        max_salary r ∈ salaries_of ["A"; "A"; "B"] [100; 300; 200]%Z d ∧
        (∀ v, v ∈ salaries_of ["A"; "A"; "B"] [100; 300; 200]%Z d → (v ≤ max_salary r)%Z) ∧
        head_count r = Z.of_nat (length (filter (λ d', d' = d) ["A"; "A"; "B"])) ∧
        py_truediv (py_sum (salaries_of ["A"; "A"; "B"] [100; 300; 200]%Z d))
                   (head_count r) = Ok mean ∧
        py_round mean 2 = Ok (mean_salary r).
Proof.
  apply (get_reports_report example_fs "staff"
           [("id", ["1"; "2"; "3"]); ("dept", ["A"; "A"; "B"]);
            ("team", ["X"; "Y"; "Z"]); ("salary", ["100"; "300"; "200"])]
           3 "dept" "salary" ["A"; "A"; "B"] ["100"; "300"; "200"]).
  - reflexivity.
  - repeat constructor.
  - reflexivity.
  - reflexivity.
  - repeat constructor; vm_compute; discriminate.
Defined.

(** C1, as stated, fails: a salary cell of 310 decimal digits is a
    decimal integer string, yet the mean does not fit a float and
    [get_reports] raises [OverflowError] instead of returning a
    mapping. *)
Lemma get_reports_mean_overflow :
  int_literal ("1" +:+ string_of_list_ascii (replicate 309 "0"%char)) = Some (10 ^ 309)%Z ∧
  get_reports large_fs "huge" = Raise OverflowError.
Proof. split; vm_compute; reflexivity. Qed.

(** ** The order of the report and its export *)

Lemma add_salary_keys pairs (acc acc' : dict (list Z)) :
  for_each add_salary acc pairs = Ok acc' → dict_keys acc' = dict_keys acc.
Proof.
  apply (for_each_invariant (λ a : dict (list Z), dict_keys a = dict_keys acc));
    [|done].
  intros a [d cell] a' Ha. unfold add_salary.
  intros (l & Hl & (v & _ & [= <-])%bind_Ok)%bind_Ok.
  rewrite dict_set_present; [done|]. by eapply dict_get_Ok_key.
Qed.

Lemma reports_of_table_keys (content : dict (list string)) report :
  reports_of_table content = Ok report →
  ∃ departments, dict_keys report = sorted_set departments.
Proof.
  unfold reports_of_table, salaries_by_departments.
  intros (grouped & (departments & _ & (departments' & _ & (salaries & _ & Hgroup)
    %bind_Ok)%bind_Ok)%bind_Ok & Hrun)%bind_Ok.
  exists departments'. apply add_salary_keys in Hgroup.
  rewrite dict_fromkeys_keys in Hgroup by apply sorted_set_NoDup.
  pose proof (add_record_run grouped []) as Hrecords. simpl in Hrecords.
  rewrite Hrun in Hrecords. unfold dict_keys in Hgroup. rewrite Hgroup in Hrecords.
  destruct (Hrecords (sorted_set_NoDup _)) as (records & Hall & ->).
  apply fst_zip. apply Forall2_length in Hall.
  rewrite <- Hall, <- Hgroup. by rewrite length_fmap.
Qed.

Lemma reports_of_table_column (content : dict (list string)) report :
  reports_of_table content = Ok report →
  ∃ departments, column_at content 1 = Ok departments ∧
                 dict_keys report = sorted_set departments.
Proof.
  intros Hrun. destruct (reports_of_table_keys content report Hrun) as [ds Hkeys].
  revert Hrun Hkeys. unfold reports_of_table, salaries_by_departments.
  intros (grouped & (departments & H1 & Hgroup)%bind_Ok & Hrun)%bind_Ok Hkeys.
  rewrite H1 in Hgroup. simpl in Hgroup.
  apply bind_Ok in Hgroup as (salaries & _ & Hgroup).
  exists departments. split; [done|].
  apply add_salary_keys in Hgroup.
  rewrite dict_fromkeys_keys in Hgroup by apply sorted_set_NoDup.
  pose proof (add_record_run grouped []) as Hrecords. simpl in Hrecords.
  rewrite Hrun in Hrecords. unfold dict_keys in Hgroup. rewrite Hgroup in Hrecords.
  destruct (Hrecords (sorted_set_NoDup _)) as (records & Hall & ->).
  apply fst_zip. apply Forall2_length in Hall.
  rewrite <- Hall, <- Hgroup. by rewrite length_fmap.
Qed.

Lemma writerows_foldl (report : dict department_report) : ∀ written,
  foldl (λ written '(department, data),
           writerow written ([CStr department] ++ record_values data))
        written report =
  written ++
    ((λ it, [CStr it.1; CInt (min_salary it.2); CInt (max_salary it.2);
             CInt (head_count it.2); CFloat (mean_salary it.2)]) <$> report).
Proof.
  induction report as [|[d r] report IH]; intros written; simpl.
  - by rewrite app_nil_r.
  - rewrite IH. unfold writerow. by rewrite <- app_assoc.
Qed.

(** C10. The report that [get_reports] returns has as keys the distinct
    cells of the second column of the table, each once, in strictly
    increasing lexicographic order; and [make_report_csv] writes the
    header row followed by one row per department, in the order of the
    report, each with the department, the minimum, the maximum, the
    head count and the mean. *)
Theorem get_reports_sorted_export (fs : filesystem) (file : string)
    (report : dict department_report) (answer : string) :
  get_reports fs file = Ok report →
  (∃ content key departments,
     get_data fs file = Ok content ∧
     content !! 1%nat = Some (key, departments) ∧
     dict_keys report = sorted_set departments ∧
     ∀ d, d ∈ dict_keys report ↔ d ∈ departments) ∧
  StronglySorted String.le (dict_keys report) ∧
  NoDup (dict_keys report) ∧
  (make_report_csv report answer).2 =
    report_header ::
    ((λ it, [CStr it.1; CInt (min_salary it.2); CInt (max_salary it.2);
             CInt (head_count it.2); CFloat (mean_salary it.2)]) <$> report).
Proof.
  unfold get_reports. intros (content & Hdata & Hrun)%bind_Ok.
  destruct (reports_of_table_column content report Hrun) as (departments & H1 & Hkeys).
  split_and!.
  - pose proof (get_data_NoDup fs file content Hdata) as Hnd.
    destruct (content !! 1%nat) as [[key column]|] eqn:Hlookup.
    + pose proof (column_at_lookup content 1 key column Hnd Hlookup) as Hcolumn.
      change (Z.of_nat 1) with 1%Z in Hcolumn.
      assert (column = departments) as -> by congruence.
      exists content, key, departments. split_and!; [done..|].
      intros d. rewrite Hkeys. apply sorted_set_elem.
    + apply reports_of_table_short in Hlookup. congruence.
  - rewrite Hkeys. apply sorted_set_sorted.
  - rewrite Hkeys. apply sorted_set_NoDup.
  - unfold make_report_csv. simpl. by rewrite writerows_foldl.
Qed.

Lemma get_reports_sorted_export_witness :
  ∃ report,
    get_reports example_fs "staff" = Ok report ∧
    (∃ content key departments,
       get_data example_fs "staff" = Ok content ∧
       content !! 1%nat = Some (key, departments) ∧
       dict_keys report = sorted_set departments ∧
       ∀ d, d ∈ dict_keys report ↔ d ∈ departments) ∧
    StronglySorted String.le (dict_keys report) ∧
    NoDup (dict_keys report) ∧
    (make_report_csv report "out").2 =
      report_header ::
      ((λ it, [CStr it.1; CInt (min_salary it.2); CInt (max_salary it.2);
               CInt (head_count it.2); CFloat (mean_salary it.2)]) <$> report).
Proof.
  eexists. split; [vm_compute; reflexivity|].
  apply (get_reports_sorted_export example_fs "staff").
  vm_compute. reflexivity.
Defined.

(** * Further properties of the loader *)

Lemma csv_path_endswith (file : string) : endswith (csv_path file) ".csv" = true.
Proof.
  unfold csv_path. destruct (endswith file ".csv") eqn:E; [done|].
  apply endswith_spec. by exists file.
Qed.

Lemma csv_path_idempotent (file : string) : csv_path (csv_path file) = csv_path file.
Proof. unfold csv_path at 1. by rewrite csv_path_endswith. Qed.

(** X1. A file name may be given with or without the [.csv] suffix:
    the three loading functions behave the same on [name] and on
    [name.csv]. *)
Theorem loaders_ignore_suffix (fs : filesystem) (file : string) :
  endswith file ".csv" = false →
  get_data fs (file +:+ ".csv") = get_data fs file ∧
  get_teams fs (file +:+ ".csv") = get_teams fs file ∧
  get_reports fs (file +:+ ".csv") = get_reports fs file.
Proof.
  intros Hfile.
  assert (csv_path file = file +:+ ".csv") as Hpath by (unfold csv_path; by rewrite Hfile).
  assert (get_data fs (file +:+ ".csv") = get_data fs file) as Hdata.
  { unfold get_data. by rewrite <- Hpath, csv_path_idempotent. }
  unfold get_teams, get_reports. by rewrite Hdata.
Qed.

Lemma loaders_ignore_suffix_witness :
  get_data example_fs ("staff" +:+ ".csv") = get_data example_fs "staff" ∧
  get_teams example_fs ("staff" +:+ ".csv") = get_teams example_fs "staff" ∧
  get_reports example_fs ("staff" +:+ ".csv") = get_reports example_fs "staff".
Proof. apply (loaders_ignore_suffix example_fs "staff"). reflexivity. Defined.

Lemma list_getitem_nat_None {A : Type} (l : list A) (i : nat) :
  l !! i = None → list_getitem l (Z.of_nat i) = Raise IndexError.
Proof.
  intros H. unfold list_getitem.
  assert ((Z.of_nat i <? 0)%Z = false) as Hi by (apply Z.ltb_ge; lia).
  rewrite Hi. simpl. by rewrite Hi, Nat2Z.id, H.
Qed.

(** A record shorter than the header stops the loader at the first
    header position it does not fill. *)
Lemma append_row_short row ts : ∀ j (c : dict (list string)),
  (∀ t, t ∈ ts → t ∈ dict_keys c) →
  j ≤ length row < j + length ts →
  for_each (append_cell row) c (zip (seq j (length ts)) ts) = Raise IndexError.
Proof.
  induction ts as [|t ts IH]; intros j c Hkeys Hlen; simpl in *; [lia|].
  destruct (dict_get_is_Ok c t) as [col0 Hcol0]; [apply Hkeys; left|].
  rewrite Hcol0. simpl.
  destruct (row !! j) as [cell|] eqn:Hcell.
  - rewrite (list_getitem_nat _ _ _ Hcell). simpl.
    apply lookup_lt_Some in Hcell. apply IH; [|lia].
    intros t' Ht'. rewrite dict_set_present; [|apply Hkeys; left].
    apply Hkeys. by right.
  - by rewrite (list_getitem_nat_None _ _ Hcell).
Qed.

Lemma append_rows_short tags rows : ∀ c : dict (list string),
  (∀ t, t ∈ tags → t ∈ dict_keys c) →
  ¬ Forall (full_record tags) rows →
  for_each (append_row tags) c rows = Raise IndexError.
Proof.
  induction rows as [|row rows IH]; intros c Hkeys Hshort; simpl.
  - by destruct Hshort.
  - destruct (decide (length tags ≤ length row)) as [Hfull|Hrow].
    + destruct (append_row_run tags row c Hkeys Hfull) as (c1 & -> & Hk1 & _).
      simpl. apply IH; [by rewrite Hk1|].
      intros Hrows. apply Hshort. by constructor.
    + unfold append_row, enumerate.
      rewrite (append_row_short row tags 0 c Hkeys); [done|lia].
Qed.

(** X2. The outcomes of [get_data], by the file: a missing file gives
    [FileNotFoundError]; an empty file (no header) gives
    [StopIteration]; a record with fewer cells than the header, such as
    a blank line, gives [IndexError]; and a file with a header and full
    records is loaded. *)
Theorem get_data_outcome (fs : filesystem) (file : string) :
  match fs (csv_path file) with
  | None => ∃ msg, get_data fs file = Raise (FileNotFoundError msg)
  | Some [] => get_data fs file = Raise StopIteration
  | Some (tags :: rows) =>
      (Forall (λ row, length tags ≤ length row) rows →
       ∃ content, get_data fs file = Ok content) ∧
      ((∃ row, row ∈ rows ∧ length row < length tags) →
       get_data fs file = Raise IndexError)
  end.
Proof.
  destruct (fs (csv_path file)) as [[|tags rows]|] eqn:Hfs.
  - unfold get_data. by rewrite Hfs.
  - split.
    + intros Hrows.
      destruct (get_data_columns fs file tags rows Hfs Hrows) as (content & ? & _).
      by exists content.
    + intros (row & Hin & Hrow). unfold get_data. rewrite Hfs.
      apply append_rows_short.
      * intros t Ht. by apply dict_fromkeys_elem.
      * rewrite Forall_forall. intros Hall. specialize (Hall row Hin).
        unfold full_record in Hall. lia.
  - unfold get_data. rewrite Hfs. eauto.
Qed.

Lemma for_each_ext {A S : Type} (body body' : S → A → result S) l :
  (∀ s x, x ∈ l → body s x = body' s x) →
  ∀ s, for_each body s l = for_each body' s l.
Proof.
  induction l as [|x l IH]; intros Hext s; simpl; [done|].
  rewrite (Hext s x) by left. destruct (body' s x) as [s'|e]; simpl; [|done].
  apply IH. intros s0 y Hy. apply Hext. by right.
Qed.

Lemma append_row_take tags row (c : dict (list string)) :
  append_row tags c (take (length tags) row) = append_row tags c row.
Proof.
  unfold append_row. revert c. apply for_each_ext.
  intros c [i tag] Hin. unfold enumerate in Hin.
  apply elem_of_zip_l in Hin. apply elem_of_seq in Hin. unfold append_cell.
  destruct (dict_get c tag) as [col|e]; simpl; [|done].
  unfold list_getitem.
  assert ((Z.of_nat i <? 0)%Z = false) as Hi by (apply Z.ltb_ge; lia).
  rewrite Hi. simpl. rewrite Hi, Nat2Z.id. by rewrite lookup_take_lt by lia.
Qed.

(** X3. The cells of a record beyond the width of the header are
    ignored: cutting every record to the width of the header changes
    nothing of what [get_data] returns or raises. *)
Theorem get_data_ignores_extra_cells (fs fs' : filesystem) (file file' : string)
    (tags : list string) (rows : list (list string)) :
  fs (csv_path file) = Some (tags :: rows) →
  fs' (csv_path file') = Some (tags :: (take (length tags) <$> rows)) →
  get_data fs' file' = get_data fs file.
Proof.
  intros Hfs Hfs'. unfold get_data. rewrite Hfs, Hfs'. clear Hfs Hfs'.
  generalize (dict_fromkeys tags ([] : list string)).
  induction rows as [|row rows IH]; intros c; csimpl; [done|].
  rewrite append_row_take. destruct (append_row tags c row); simpl; [apply IH|done].
Qed.

Lemma get_data_ignores_extra_cells_witness :
  get_data wide_fs "cut" = get_data wide_fs "wide".
Proof.
  apply (get_data_ignores_extra_cells wide_fs wide_fs "wide" "cut"
           ["id"; "dept"] [["1"; "A"; "spare"]; ["2"; "B"]]); reflexivity.
Defined.

(** X4. Whatever the file, a table that [get_data] returns comes from
    a file with a header and full records, and its keys are the header
    names, each once. *)
Theorem get_data_loaded (fs : filesystem) (file : string)
    (content : dict (list string)) :
  get_data fs file = Ok content →
  ∃ tags rows,
    fs (csv_path file) = Some (tags :: rows) ∧
    Forall (λ row, length tags ≤ length row) rows ∧
    NoDup (dict_keys content) ∧
    (∀ k, k ∈ dict_keys content ↔ k ∈ tags) ∧
    length content ≤ length tags.
Proof.
  intros Hdata. pose proof Hdata as Hrun. unfold get_data in Hrun.
  destruct (fs (csv_path file)) as [[|tags rows]|] eqn:Hfs; try done.
  exists tags, rows.
  destruct (decide (Forall (λ row, length tags ≤ length row) rows)) as [Hrows|Hshort].
  - destruct (get_data_columns fs file tags rows Hfs Hrows)
      as (content' & Hdata' & Hnd & Hkeys & _).
    assert (content' = content) as -> by congruence.
    split_and!; try done.
    replace (length content) with (length (dict_keys content))
      by (unfold dict_keys; apply length_fmap).
    apply submseteq_length, NoDup_submseteq; [done|]. intros k. apply Hkeys.
  - rewrite append_rows_short in Hrun; [done| |done].
    intros t Ht. by apply dict_fromkeys_elem.
Qed.

Lemma get_data_loaded_witness :
  ∃ tags rows,
    example_fs (csv_path "staff") = Some (tags :: rows) ∧
    Forall (λ row, length tags ≤ length row) rows ∧
    NoDup (dict_keys [("id", ["1"; "2"; "3"]); ("dept", ["A"; "A"; "B"]);
                      ("team", ["X"; "Y"; "Z"]); ("salary", ["100"; "300"; "200"])]) ∧
    (∀ k, k ∈ dict_keys [("id", ["1"; "2"; "3"]); ("dept", ["A"; "A"; "B"]);
                         ("team", ["X"; "Y"; "Z"]); ("salary", ["100"; "300"; "200"])]
          ↔ k ∈ tags) ∧
    length [("id", ["1"; "2"; "3"]); ("dept", ["A"; "A"; "B"]);
            ("team", ["X"; "Y"; "Z"]); ("salary", ["100"; "300"; "200"])] ≤ length tags.
Proof. apply (get_data_loaded example_fs "staff"). reflexivity. Defined.

(** * Further properties of the hierarchy *)

Lemma add_division_keys pairs (out out' : dict (gset string)) :
  for_each add_division out pairs = Ok out' → dict_keys out' = dict_keys out.
Proof.
  apply (for_each_invariant (λ a : dict (gset string), dict_keys a = dict_keys out));
    [|done].
  intros a [d v] a' Ha. unfold add_division.
  intros (teams & Hteams & [= <-])%bind_Ok.
  rewrite dict_set_present; [done|]. by eapply dict_get_Ok_key.
Qed.

Lemma column_at_Raise (content : dict (list string)) (i : Z) err :
  column_at content i = Raise err → err = IndexError.
Proof.
  unfold column_at, list_getitem.
  set (j := if (i <? 0)%Z then _ else i).
  destruct (j <? 0)%Z; simpl; [congruence|].
  destruct (dict_keys content !! _) as [k|] eqn:Hk; simpl; [|congruence].
  intros Hget. apply list_elem_of_lookup_2 in Hk.
  apply dict_get_is_Ok in Hk as [v Hv]. congruence.
Qed.

Lemma teams_of_table_short (content : dict (list string)) :
  length content < 3 → teams_of_table content = Raise IndexError.
Proof.
  intros Hlen. unfold teams_of_table.
  destruct (column_at content 1) as [departments|e] eqn:H1; simpl.
  - pose proof (column_at_short content 2 ltac:(lia)) as H2.
    change (Z.of_nat 2) with 2%Z in H2. by rewrite H2.
  - by rewrite (column_at_Raise _ _ _ H1).
Qed.

(** X5. On a loaded table [get_teams] fails in one way only: with
    [IndexError], exactly when the table has fewer than three columns;
    with three columns or more it returns a hierarchy, whatever the
    cells and the lengths of the columns. *)
Theorem get_teams_outcome (fs : filesystem) (file : string)
    (content : dict (list string)) :
  get_data fs file = Ok content →
  (length content < 3 → get_teams fs file = Raise IndexError) ∧
  (3 ≤ length content → ∃ out, get_teams fs file = Ok out).
Proof.
  intros Hdata. pose proof (get_data_NoDup fs file content Hdata) as Hnd.
  unfold get_teams. rewrite Hdata. simpl. split.
  - apply teams_of_table_short.
  - intros Hlen.
    destruct (lookup_lt_is_Some_2 content 1 ltac:(lia)) as [[k1 departments] H1].
    destruct (lookup_lt_is_Some_2 content 2 ltac:(lia)) as [[k2 divisions] H2].
    destruct (teams_of_table_run content k1 departments k2 divisions Hnd H1 H2)
      as (out & Hout & _).
    by exists out.
Qed.

Lemma get_teams_outcome_witness :
  (length [("id", ["1"; "2"; "3"]); ("dept", ["A"; "A"; "B"]);
           ("team", ["X"; "Y"; "Z"]); ("salary", ["100"; "300"; "200"])] < 3 →
   get_teams example_fs "staff" = Raise IndexError) ∧
  (3 ≤ length [("id", ["1"; "2"; "3"]); ("dept", ["A"; "A"; "B"]);
               ("team", ["X"; "Y"; "Z"]); ("salary", ["100"; "300"; "200"])] →
   ∃ out, get_teams example_fs "staff" = Ok out).
Proof. apply (get_teams_outcome example_fs "staff"). reflexivity. Defined.

Lemma teams_of_table_keys (content : dict (list string)) out :
  teams_of_table content = Ok out →
  ∃ departments, column_at content 1 = Ok departments ∧
                 dict_keys out = sorted_set departments.
Proof.
  unfold teams_of_table.
  intros (departments & H1 & Hrun)%bind_Ok. rewrite H1 in Hrun. simpl in Hrun.
  apply bind_Ok in Hrun as (divisions & _ & Hrun).
  exists departments. split; [done|].
  apply add_division_keys in Hrun. rewrite Hrun.
  apply dict_fromkeys_keys, sorted_set_NoDup.
Qed.

(** X6. In the hierarchy that [get_teams] returns the departments are in
    strictly increasing lexicographic order, whatever the table; and
    when the columns of the table have one length, no department has an
    empty set of teams. *)
Theorem get_teams_sorted_nonempty (fs : filesystem) (file : string)
    (out : dict (gset string)) :
  get_teams fs file = Ok out →
  StronglySorted String.le (dict_keys out) ∧
  NoDup (dict_keys out) ∧
  ∀ (content : dict (list string)) (n : nat),
    get_data fs file = Ok content →
    Forall (λ kv, length kv.2 = n) content →
    ∀ d teams, dict_get out d = Ok teams → teams ≠ ∅.
Proof.
  unfold get_teams. intros (content & Hdata & Hout)%bind_Ok.
  destruct (teams_of_table_keys content out Hout) as (ds & _ & Hsorted).
  split_and!;
    [rewrite Hsorted; apply sorted_set_sorted|rewrite Hsorted; apply sorted_set_NoDup|].
  clear ds Hsorted. intros content' n Hdata' Hall.
  assert (content' = content) as -> by congruence.
  pose proof (get_data_NoDup fs file content Hdata) as Hnd.
  destruct (decide (length content < 3)) as [Hshort|Hlen];
    [by rewrite teams_of_table_short in Hout|].
  destruct (lookup_lt_is_Some_2 content 1 ltac:(lia)) as [[k1 departments] H1].
  destruct (lookup_lt_is_Some_2 content 2 ltac:(lia)) as [[k2 divisions] H2].
  destruct (teams_of_table_run content k1 departments k2 divisions Hnd H1 H2)
    as (out' & Hout' & Hkeys & Hget).
  assert (out' = out) as -> by congruence.
  intros d teams Hteams.
  assert (d ∈ departments) as Hd.
  { apply sorted_set_elem. rewrite <- Hkeys. by eapply dict_get_Ok_key. }
  rewrite (Hget d Hd) in Hteams. injection Hteams as <-.
  apply list_elem_of_lookup_1 in Hd as [i Hi].
  rewrite Forall_forall in Hall.
  pose proof (Hall (k1, departments) (list_elem_of_lookup_2 _ _ _ H1)) as Hl1.
  pose proof (Hall (k2, divisions) (list_elem_of_lookup_2 _ _ _ H2)) as Hl2.
  simpl in Hl1, Hl2.
  destruct (lookup_lt_is_Some_2 divisions i) as [v Hv].
  { apply lookup_lt_Some in Hi. lia. }
  intros Hempty.
  assert (v ∈ divisions_of departments divisions d) as Hin
    by (apply elem_of_divisions_of; eauto).
  rewrite Hempty in Hin. by apply not_elem_of_empty in Hin.
Qed.

Lemma get_teams_sorted_nonempty_witness :
  ∃ out,
    get_teams example_fs "staff" = Ok out ∧
    StronglySorted String.le (dict_keys out) ∧
    NoDup (dict_keys out) ∧
    ∀ d teams, dict_get out d = Ok teams → teams ≠ ∅.
Proof.
  eexists. split; [vm_compute; reflexivity|].
  destruct (get_teams_sorted_nonempty example_fs "staff"
              [("A", {[ "X"; "Y" ]}); ("B", {[ "Z" ]})])
    as (Hsorted & Hnodup & Hnonempty).
  - vm_compute. reflexivity.
  - split_and!; [exact Hsorted|exact Hnodup|].
    apply (Hnonempty
             [("id", ["1"; "2"; "3"]); ("dept", ["A"; "A"; "B"]);
              ("team", ["X"; "Y"; "Z"]); ("salary", ["100"; "300"; "200"])] 3%nat).
    + reflexivity.
    + repeat constructor.
Defined.

(** * Further properties of the report *)

(** X7. The two views of one file agree on the departments: when
    [get_teams] and [get_reports] both return, their mappings have the
    same keys in the same order. *)
Theorem get_teams_get_reports_keys (fs : filesystem) (file : string)
    (teams : dict (gset string)) (report : dict department_report) :
  get_teams fs file = Ok teams →
  get_reports fs file = Ok report →
  dict_keys teams = dict_keys report.
Proof.
  unfold get_teams, get_reports.
  intros (content & Hdata & Hteams)%bind_Ok (content' & Hdata' & Hreport)%bind_Ok.
  assert (content' = content) as -> by congruence.
  destruct (teams_of_table_keys content teams Hteams) as (ds & H1 & ->).
  destruct (reports_of_table_column content report Hreport) as (ds' & H1' & ->).
  congruence.
Qed.

Lemma get_teams_get_reports_keys_witness :
  ∃ teams report,
    get_teams example_fs "staff" = Ok teams ∧
    get_reports example_fs "staff" = Ok report ∧
    dict_keys teams = dict_keys report.
Proof.
  eexists _, _. split_and!; [vm_compute; reflexivity..|].
  eapply (get_teams_get_reports_keys example_fs "staff"); vm_compute; reflexivity.
Defined.

(** X8. In every record of a report that [get_reports] returns,
    whatever the file, the head count is at least one and the minimum
    salary is not above the maximum. *)
Theorem get_reports_record_bounds (fs : filesystem) (file : string)
    (report : dict department_report) (d : string) (r : department_report) :
  get_reports fs file = Ok report →
  dict_get report d = Ok r →
  (1 ≤ head_count r)%Z ∧ (min_salary r ≤ max_salary r)%Z.
Proof.
  intros Hreport Hget.
  destruct (get_reports_record_source fs file report d r Hreport Hget) as [l Hr].
  destruct (department_record_inv l r Hr) as (Hne & Hlo & Hhi & Hcount & _).
  apply py_min_Ok in Hlo as [Hlo_in Hlo]. apply py_max_Ok in Hhi as [_ Hhi].
  rewrite Forall_forall in Hhi. split.
  - rewrite Hcount. destruct l; [done|]. simpl. lia.
  - by apply Hhi.
Qed.

Lemma get_reports_record_bounds_witness :
  ∃ r, dict_get
         [("A", DepartmentReport 100 300 2 (PyFloat false 7036874417766400 (-45)));
          ("B", DepartmentReport 200 200 1 (PyFloat false 7036874417766400 (-45)))]
         "B" = Ok r ∧
       (1 ≤ head_count r)%Z ∧ (min_salary r ≤ max_salary r)%Z.
Proof.
  eexists. split; [reflexivity|].
  eapply (get_reports_record_bounds example_fs "staff" _ "B").
  - vm_compute. reflexivity.
  - reflexivity.
Defined.

Lemma add_salary_Raise pairs : ∀ (acc : dict (list Z)) err,
  (∀ p, p ∈ pairs → p.1 ∈ dict_keys acc) →
  for_each add_salary acc pairs = Raise err →
  ∃ cell, err = ValueError (InvalidLiteral cell) ∧ int_literal cell = None.
Proof.
  induction pairs as [|[d cell] pairs IH]; intros acc err Hkeys; simpl; [done|].
  destruct (dict_get_is_Ok acc d) as [l0 Hl0]; [apply (Hkeys (d, cell)); left|].
  rewrite Hl0. simpl. unfold int.
  destruct (int_literal cell) as [v|] eqn:Hcell; simpl.
  - apply IH. intros p Hp. rewrite dict_set_present; [|apply (Hkeys (d, cell)); left].
    apply Hkeys. by right.
  - intros [= <-]. eauto.
Qed.

Lemma add_record_Raise items : ∀ (report : dict department_report) err,
  for_each add_record report items = Raise err →
  ∃ l, department_record l = Raise err.
Proof.
  induction items as [|[d l] items IH]; intros report err; simpl; [done|].
  destruct (department_record l) as [r|e] eqn:Hr; simpl; [apply IH|].
  intros [= <-]. eauto.
Qed.

Lemma reports_of_table_Raise (content : dict (list string)) err :
  NoDup (dict_keys content) →
  reports_of_table content = Raise err →
  (err = IndexError ∧ length content < 2) ∨
  (∃ cell, err = ValueError (InvalidLiteral cell) ∧ int_literal cell = None) ∨
  err = ValueError EmptySequence ∨
  err = OverflowError.
Proof.
  intros Hnd. unfold reports_of_table, salaries_by_departments.
  destruct (content !! 1) as [[k1 departments]|] eqn:H1.
  - pose proof (column_at_lookup content 1 k1 departments Hnd H1) as Hc1.
    change (Z.of_nat 1) with 1%Z in Hc1. rewrite Hc1. simpl.
    destruct (last content) as [[kl salaries]|] eqn:Hlast;
      [|apply last_None in Hlast; by subst content].
    rewrite (column_at_last content kl salaries Hnd Hlast). simpl.
    destruct (for_each add_salary _ _) as [grouped|e] eqn:Hgroup; simpl.
    + intros (l & Hl)%add_record_Raise.
      apply department_record_Raise in Hl as [[_ ->]|[_ ->]]; auto.
    + intros [= <-]. right. left. eapply add_salary_Raise; [|done].
      intros [d v] Hp. apply dict_fromkeys_elem, sorted_set_elem. simpl.
      by apply elem_of_zip_l in Hp.
  - apply lookup_ge_None in H1.
    pose proof (column_at_short content 1 H1) as Hshort.
    change (Z.of_nat 1) with 1%Z in Hshort. rewrite Hshort. simpl.
    intros [= <-]. left. split; [done|lia].
Qed.

(** X9. On a loaded table [get_reports] fails in these ways only: with
    [IndexError], exactly when the table has fewer than two columns;
    with the [ValueError] of a salary cell that [int] rejects; with the
    [ValueError] of [min] on an empty sequence; or with
    [OverflowError].  It raises neither [KeyError] nor
    [ZeroDivisionError]. *)
Theorem get_reports_errors (fs : filesystem) (file : string)
    (content : dict (list string)) :
  get_data fs file = Ok content →
  (length content < 2 → get_reports fs file = Raise IndexError) ∧
  ∀ err, get_reports fs file = Raise err →
    (err = IndexError ∧ length content < 2) ∨
    (∃ cell, err = ValueError (InvalidLiteral cell) ∧ int_literal cell = None) ∨
    err = ValueError EmptySequence ∨
    err = OverflowError.
Proof.
  intros Hdata. pose proof (get_data_NoDup fs file content Hdata) as Hnd.
  unfold get_reports. rewrite Hdata. simpl. split.
  - intros Hlen. apply reports_of_table_short. apply lookup_ge_None. lia.
  - intros err. by apply reports_of_table_Raise.
Qed.

Lemma get_reports_errors_witness :
  (length [("id", ["1"; "2"]); ("dept", ["A"; "B"]);
           ("team", ["X"; "Y"]); ("salary", ["100"; "abc"])] < 2 →
   get_reports invalid_fs "invalid" = Raise IndexError) ∧
  ∀ err, get_reports invalid_fs "invalid" = Raise err →
    (err = IndexError ∧
     length [("id", ["1"; "2"]); ("dept", ["A"; "B"]);
             ("team", ["X"; "Y"]); ("salary", ["100"; "abc"])] < 2) ∨
    (∃ cell, err = ValueError (InvalidLiteral cell) ∧ int_literal cell = None) ∨
    err = ValueError EmptySequence ∨
    err = OverflowError.
Proof. apply (get_reports_errors invalid_fs "invalid"). reflexivity. Defined.

(** * The order of the records *)

Lemma concat_cells_column tags j tag rows :
  NoDup tags → tags !! j = Some tag →
  Forall (full_record tags) rows →
  concat (cells_named tags tag <$> rows) = column_of j rows.
Proof.
  intros Hnd Htag. induction 1 as [|row rows Hrow Hrows IH]; csimpl; [done|].
  destruct (lookup_lt_is_Some_2 row j) as [cell Hcell].
  { apply lookup_lt_Some in Htag. unfold full_record in Hrow. lia. }
  rewrite (cells_named_unique tags j tag row cell) by done.
  rewrite IH. simpl. by rewrite Hcell.
Qed.

(** The table of a file with distinct header names and full records,
    column by column. *)
Lemma get_data_lookup fs file tags rows :
  fs (csv_path file) = Some (tags :: rows) →
  NoDup tags →
  Forall (full_record tags) rows →
  ∃ content,
    get_data fs file = Ok content ∧
    length content = length tags ∧
    ∀ j tag, tags !! j = Some tag → content !! j = Some (tag, column_of j rows).
Proof.
  intros Hfs Hnd Hrows.
  destruct (get_data_columns fs file tags rows Hfs Hrows)
    as (content & Hrun & Hndk & _ & Hkeys & Hget).
  specialize (Hkeys Hnd). exists content. split_and!; [done| |].
  - rewrite <- Hkeys. unfold dict_keys. by rewrite length_fmap.
  - intros j tag Htag. rewrite <- Hkeys in Htag. unfold dict_keys in Htag.
    apply list_lookup_fmap_Some in Htag as ([k col] & -> & Hj). simpl.
    rewrite Hj. do 2 f_equal.
    pose proof (dict_get_elem_NoDup content k col Hndk
                  (list_elem_of_lookup_2 _ _ _ Hj)) as Hcol.
    assert (tags !! j = Some k) as Hk.
    { rewrite <- Hkeys. unfold dict_keys. by rewrite list_lookup_fmap, Hj. }
    rewrite Hget in Hcol by (by eapply list_elem_of_lookup_2).
    rewrite (concat_cells_column tags j k rows) in Hcol by done. congruence.
Qed.

Lemma zip_column_of i j rows :
  zip (column_of i rows) (column_of j rows) =
  (λ row, (default "" (row !! i), default "" (row !! j))) <$> rows.
Proof. induction rows as [|row rows IH]; csimpl; [done|]. by rewrite IH. Qed.

Lemma divisions_of_perm ds vs ds' vs' d :
  zip ds vs ≡ₚ zip ds' vs' → divisions_of ds vs d = divisions_of ds' vs' d.
Proof.
  intros Hperm. unfold divisions_of. apply list_to_set_perm_L.
  by rewrite Hperm.
Qed.

Lemma sorted_set_perm ds ds' : ds ≡ₚ ds' → sorted_set ds = sorted_set ds'.
Proof.
  intros Hperm. unfold sorted_set. by rewrite (list_to_set_perm_L ds ds' Hperm).
Qed.

(** X10. The hierarchy does not depend on the order of the records:
    for a file with distinct header names and full records, putting the
    records in another order gives the same result of [get_teams]. *)
Theorem get_teams_row_order (fs fs' : filesystem) (file file' : string)
    (tags : list string) (rows rows' : list (list string)) :
  fs (csv_path file) = Some (tags :: rows) →
  fs' (csv_path file') = Some (tags :: rows') →
  NoDup tags →
  Forall (λ row, length tags ≤ length row) rows →
  rows ≡ₚ rows' →
  get_teams fs' file' = get_teams fs file.
Proof.
  intros Hfs Hfs' Hnd Hrows Hperm.
  assert (Forall (full_record tags) rows') as Hrows' by (by rewrite <- Hperm).
  destruct (get_data_lookup fs file tags rows Hfs Hnd Hrows)
    as (content & Hdata & Hlen & Hcol).
  destruct (get_data_lookup fs' file' tags rows' Hfs' Hnd Hrows')
    as (content' & Hdata' & Hlen' & Hcol').
  pose proof (get_data_NoDup fs file content Hdata) as Hndk.
  pose proof (get_data_NoDup fs' file' content' Hdata') as Hndk'.
  unfold get_teams. rewrite Hdata, Hdata'. simpl.
  destruct (decide (length tags < 3)) as [Hshort|Hwide].
  - by rewrite !teams_of_table_short by lia.
  - destruct (lookup_lt_is_Some_2 tags 1 ltac:(lia)) as [t1 Ht1].
    destruct (lookup_lt_is_Some_2 tags 2 ltac:(lia)) as [t2 Ht2].
    destruct (teams_of_table_run content t1 (column_of 1 rows) t2 (column_of 2 rows))
      as (out & Hout & Hkeys & Hget); [done|by apply Hcol|by apply Hcol|].
    destruct (teams_of_table_run content' t1 (column_of 1 rows') t2 (column_of 2 rows'))
      as (out' & Hout' & Hkeys' & Hget'); [done|by apply Hcol'|by apply Hcol'|].
    rewrite Hout, Hout'. f_equal.
    assert (column_of 1 rows ≡ₚ column_of 1 rows') as Hperm1
      by (unfold column_of; by rewrite Hperm).
    assert (zip (column_of 1 rows) (column_of 2 rows) ≡ₚ
            zip (column_of 1 rows') (column_of 2 rows')) as Hzip
      by (rewrite !zip_column_of; by rewrite Hperm).
    rewrite (dict_items out (divisions_of (column_of 1 rows) (column_of 2 rows))),
      (dict_items out' (divisions_of (column_of 1 rows) (column_of 2 rows))).
    + by rewrite Hkeys, Hkeys', (sorted_set_perm _ _ Hperm1).
    + rewrite Hkeys'. apply sorted_set_NoDup.
    + intros k Hk. rewrite Hkeys', sorted_set_elem in Hk.
      rewrite (Hget' k Hk). f_equal. by apply divisions_of_perm.
    + rewrite Hkeys. apply sorted_set_NoDup.
    + intros k Hk. rewrite Hkeys, sorted_set_elem in Hk.
      by rewrite (Hget k Hk).
Qed.

Lemma get_teams_row_order_witness :
  get_teams shuffled_fs "shuffled" = get_teams example_fs "staff".
Proof.
  apply (get_teams_row_order example_fs shuffled_fs "staff" "shuffled"
           example_header example_rows
           [["3"; "B"; "Z"; "200"]; ["1"; "A"; "X"; "100"]; ["2"; "A"; "Y"; "300"]]).
  - reflexivity.
  - reflexivity.
  - apply (bool_decide_unpack _). vm_compute. exact I.
  - repeat constructor.
  - unfold example_rows. symmetry.
    apply (Permutation_cons_append
             [["1"; "A"; "X"; "100"]; ["2"; "A"; "Y"; "300"]] ["3"; "B"; "Z"; "200"]).
Defined.

Lemma py_min_perm l l' : l ≡ₚ l' → py_min l = py_min l'.
Proof.
  intros Hperm. destruct (py_min l) as [m|e] eqn:Hm, (py_min l') as [m'|e'] eqn:Hm'.
  - apply py_min_Ok in Hm as [Hin Hall], Hm' as [Hin' Hall'].
    rewrite Forall_forall in Hall, Hall'.
    rewrite Hperm in Hin. rewrite <- Hperm in Hin'.
    specialize (Hall _ Hin'). specialize (Hall' _ Hin). f_equal. lia.
  - destruct l' as [|x l']; [|done]. apply Permutation_nil_r in Hperm. by subst l.
  - destruct l as [|x l]; [|done]. apply Permutation_nil_l in Hperm. by subst l'.
  - destruct l; [|done]. destruct l'; [|done]. simpl in *. congruence.
Qed.

Lemma py_max_perm l l' : l ≡ₚ l' → py_max l = py_max l'.
Proof.
  intros Hperm. destruct (py_max l) as [m|e] eqn:Hm, (py_max l') as [m'|e'] eqn:Hm'.
  - apply py_max_Ok in Hm as [Hin Hall], Hm' as [Hin' Hall'].
    rewrite Forall_forall in Hall, Hall'.
    rewrite Hperm in Hin. rewrite <- Hperm in Hin'.
    specialize (Hall _ Hin'). specialize (Hall' _ Hin). f_equal. lia.
  - destruct l' as [|x l']; [|done]. apply Permutation_nil_r in Hperm. by subst l.
  - destruct l as [|x l]; [|done]. apply Permutation_nil_l in Hperm. by subst l'.
  - destruct l; [|done]. destruct l'; [|done]. simpl in *. congruence.
Qed.

Lemma py_sum_perm l l' : l ≡ₚ l' → py_sum l = py_sum l'.
Proof.
  induction 1 as [|x l l' _ IH|x y l|l1 l2 l3 _ IH1 _ IH2].
  - done.
  - by rewrite !py_sum_cons, IH.
  - rewrite !py_sum_cons. lia.
  - congruence.
Qed.

(** The record of a department does not depend on the order of its
    salaries: the sum is an exact integer. *)
Lemma department_record_perm l l' :
  l ≡ₚ l' → department_record l = department_record l'.
Proof.
  intros Hperm. unfold department_record.
  by rewrite (py_min_perm l l' Hperm), (py_max_perm l l' Hperm),
    (py_sum_perm l l' Hperm), (Permutation_length Hperm).
Qed.

Lemma add_record_perm items : ∀ items' (report : dict department_report),
  Forall2 (λ it it', it.1 = it'.1 ∧ it.2 ≡ₚ it'.2) items items' →
  for_each add_record report items = for_each add_record report items'.
Proof.
  induction items as [|[d l] items IH]; intros items' report Hall.
  - apply Forall2_nil_inv_l in Hall. by subst.
  - apply Forall2_cons_inv_l in Hall as ([d' l'] & items'' & [Hd Hl] & Hall & ->).
    simpl in *. subst d'. rewrite (department_record_perm l l' Hl).
    destruct (department_record l'); simpl; [by apply IH|done].
Qed.

Lemma int_literals_total salaries :
  Forall (λ cell, is_Some (int_literal cell)) salaries →
  Forall2 (λ cell v, int_literal cell = Some v) salaries
          ((λ cell, default 0%Z (int_literal cell)) <$> salaries).
Proof.
  induction 1 as [|cell salaries [v Hv] _ IH]; csimpl; constructor; [|done].
  by rewrite Hv.
Qed.

(** When [int] accepts every salary cell, the report is the second loop
    run on the salaries grouped by department. *)
Lemma reports_of_table_parsed (content : dict (list string))
    k1 departments kl salaries :
  NoDup (dict_keys content) →
  content !! 1 = Some (k1, departments) →
  last content = Some (kl, salaries) →
  length departments = length salaries →
  Forall (λ cell, is_Some (int_literal cell)) salaries →
  reports_of_table content =
    for_each add_record []
      ((λ d, (d, salaries_of departments
                   ((λ cell, default 0%Z (int_literal cell)) <$> salaries) d))
         <$> sorted_set departments).
Proof.
  intros Hnd H1 Hlast Hlen Hall. unfold reports_of_table.
  pose proof (salaries_by_departments_run content k1 departments kl salaries
                Hnd H1 Hlast Hlen) as Hgroup.
  pose proof (int_literals_total salaries Hall) as Hvalues.
  destruct (salaries_by_departments content) as [grouped|err]; simpl.
  - destruct Hgroup as (values & Hvalues0 & ->).
    by rewrite (int_literals_unique _ _ _ Hvalues0 Hvalues).
  - destruct Hgroup as (cell & _ & Hin & Hnone). rewrite Forall_forall in Hall.
    destruct (Hall cell Hin) as [v Hv]. congruence.
Qed.

(** Otherwise it is the [ValueError] of a rejected cell. *)
Lemma reports_of_table_rejected (content : dict (list string))
    k1 departments kl salaries :
  NoDup (dict_keys content) →
  content !! 1 = Some (k1, departments) →
  last content = Some (kl, salaries) →
  length departments = length salaries →
  ¬ Forall (λ cell, is_Some (int_literal cell)) salaries →
  ∃ cell, reports_of_table content = Raise (ValueError (InvalidLiteral cell)).
Proof.
  intros Hnd H1 Hlast Hlen Hnot.
  pose proof (reports_of_table_run content k1 departments kl salaries
                Hnd H1 Hlast Hlen) as Hrun.
  assert (∀ values, Forall2 (λ cell v, int_literal cell = Some v) salaries values →
                    False) as Hno.
  { intros values Hvalues. apply Hnot. eapply Forall2_Forall_l; [done|].
    apply Forall_forall. intros v _ cell Hcell. by exists v. }
  destruct (reports_of_table content) as [report|err].
  - destruct Hrun as (values & _ & Hvalues & _). by destruct (Hno values).
  - destruct Hrun as [(cell & -> & _)|(_ & values & _ & Hvalues & _)]; [eauto|].
    by destruct (Hno values).
Qed.

(** X11. The report does not depend on the order of the records: for a
    file with distinct header names and full records, putting the
    records in another order gives the same result of [get_reports],
    unless [int] rejects a salary cell, in which case both orders raise
    the [ValueError] of a rejected cell (of the first one met). *)
Theorem get_reports_row_order (fs fs' : filesystem) (file file' : string)
    (tags : list string) (rows rows' : list (list string)) :
  fs (csv_path file) = Some (tags :: rows) →
  fs' (csv_path file') = Some (tags :: rows') →
  NoDup tags →
  Forall (λ row, length tags ≤ length row) rows →
  rows ≡ₚ rows' →
  get_reports fs' file' = get_reports fs file ∨
  ∃ cell cell',
    get_reports fs file = Raise (ValueError (InvalidLiteral cell)) ∧
    get_reports fs' file' = Raise (ValueError (InvalidLiteral cell')).
Proof.
  intros Hfs Hfs' Hnd Hrows Hperm.
  assert (Forall (full_record tags) rows') as Hrows' by (by rewrite <- Hperm).
  destruct (get_data_lookup fs file tags rows Hfs Hnd Hrows)
    as (content & Hdata & Hlen & Hcol).
  destruct (get_data_lookup fs' file' tags rows' Hfs' Hnd Hrows')
    as (content' & Hdata' & Hlen' & Hcol').
  pose proof (get_data_NoDup fs file content Hdata) as Hndk.
  pose proof (get_data_NoDup fs' file' content' Hdata') as Hndk'.
  unfold get_reports. rewrite Hdata, Hdata'. simpl.
  destruct (decide (length tags < 2)) as [Hshort|Hwide].
  { left. rewrite !reports_of_table_short; [done|apply lookup_ge_None; lia..]. }
  destruct (lookup_lt_is_Some_2 tags 1 ltac:(lia)) as [t1 Ht1].
  destruct (lookup_lt_is_Some_2 tags (pred (length tags)) ltac:(lia)) as [tl Htl].
  set (n := pred (length tags)) in *.
  assert (last content = Some (tl, column_of n rows)) as Hlast
    by (rewrite last_lookup, Hlen; by apply Hcol).
  assert (last content' = Some (tl, column_of n rows')) as Hlast'
    by (rewrite last_lookup, Hlen'; by apply Hcol').
  assert (∀ i j r, length (column_of i r) = length (column_of j r)) as Hlens
    by (intros; unfold column_of; by rewrite !length_fmap).
  assert (column_of n rows ≡ₚ column_of n rows') as Hpermn
    by (unfold column_of; by rewrite Hperm).
  destruct (decide (Forall (λ cell, is_Some (int_literal cell)) (column_of n rows)))
    as [Hall|Hnot].
  - left.
    rewrite (reports_of_table_parsed content t1 (column_of 1 rows) tl (column_of n rows));
      [|done|by apply Hcol|done|apply Hlens|done].
    rewrite (reports_of_table_parsed content' t1 (column_of 1 rows') tl (column_of n rows'));
      [|done|by apply Hcol'|done|apply Hlens|by rewrite <- Hpermn].
    assert (sorted_set (column_of 1 rows') = sorted_set (column_of 1 rows)) as ->
      by (apply sorted_set_perm; unfold column_of; by rewrite Hperm).
    apply add_record_perm, Forall2_fmap, Forall_Forall2_diag, Forall_forall.
    intros d _. split; [done|]. simpl. unfold salaries_of.
    apply fmap_Permutation, filter_Permutation.
    unfold column_of. rewrite <- !list_fmap_compose.
    rewrite !zip_with_fmap_l, !zip_with_fmap_r, !zip_with_diag.
    by rewrite Hperm.
  - right.
    destruct (reports_of_table_rejected content t1 (column_of 1 rows) tl (column_of n rows))
      as [cell Hcell]; [done|by apply Hcol|done|apply Hlens|done|].
    destruct (reports_of_table_rejected content' t1 (column_of 1 rows') tl
                (column_of n rows')) as [cell' Hcell'];
      [done|by apply Hcol'|done|apply Hlens|by rewrite <- Hpermn|].
    by exists cell, cell'.
Qed.

Lemma get_reports_row_order_witness :
  get_reports shuffled_fs "shuffled" = get_reports example_fs "staff" ∨
  ∃ cell cell',
    get_reports example_fs "staff" = Raise (ValueError (InvalidLiteral cell)) ∧
    get_reports shuffled_fs "shuffled" = Raise (ValueError (InvalidLiteral cell')).
Proof.
  apply (get_reports_row_order example_fs shuffled_fs "staff" "shuffled"
           example_header example_rows
           [["3"; "B"; "Z"; "200"]; ["1"; "A"; "X"; "100"]; ["2"; "A"; "Y"; "300"]]).
  - reflexivity.
  - reflexivity.
  - apply (bool_decide_unpack _). vm_compute. exact I.
  - repeat constructor.
  - unfold example_rows. symmetry.
    apply (Permutation_cons_append
             [["1"; "A"; "X"; "100"]; ["2"; "A"; "Y"; "300"]] ["3"; "B"; "Z"; "200"]).
Defined.

(** * The export *)

(** X12. Whatever the report and the name typed, [make_report_csv]
    writes to a name that ends in [.csv], and what it writes is the
    header row followed by one row of five cells per entry of the
    report. *)
Theorem make_report_csv_shape (report : dict department_report) (answer : string) :
  endswith (make_report_csv report answer).1 ".csv" = true ∧
  (make_report_csv report answer).2 !! 0 = Some report_header ∧
  length (make_report_csv report answer).2 = S (length report) ∧
  Forall (λ row, length row = 5) (make_report_csv report answer).2.
Proof.
  unfold make_report_csv. simpl. rewrite writerows_foldl. split_and!.
  - apply csv_path_endswith.
  - done.
  - simpl. by rewrite length_fmap.
  - simpl. constructor; [done|]. apply Forall_fmap, Forall_forall. by intros [d r] _.
Qed.

(** * The console *)

Section console.
Variable set_list : gset string → list string.
Variable float_str : pyfloat → string.

Lemma print_teams_frame data : ∀ c,
  stdin (print_teams set_list data c) = stdin c ∧
  written (print_teams set_list data c) = written c ∧
  ∃ texts, stdout (print_teams set_list data c) = stdout c ++ texts ∧
           length texts = 3 * length data.
Proof.
  unfold print_teams. induction data as [|[d teams] data IH]; intros c.
  - simpl. split_and!; [done..|]. exists []. by rewrite app_nil_r.
  - cbn [foldl].
    destruct (IH (print_department set_list c (d, teams))) as (Hin & Hw & texts & Hout & Hlen).
    rewrite Hin, Hw, Hout. split_and!; [done..|]. simpl.
    eexists. rewrite <- !app_assoc. split; [done|].
    rewrite !length_app. simpl. lia.
Qed.

Lemma print_report_frame report : ∀ c,
  stdin (print_report float_str report c) = stdin c ∧
  written (print_report float_str report c) = written c ∧
  ∃ texts, stdout (print_report float_str report c) = stdout c ++ texts ∧
           length texts = 4 * length report.
Proof.
  unfold print_report. induction report as [|[d r] report IH]; intros c.
  - simpl. split_and!; [done..|]. exists []. by rewrite app_nil_r.
  - cbn [foldl].
    destruct (IH (print_record float_str c (d, r))) as (Hin & Hw & texts & Hout & Hlen).
    rewrite Hin, Hw, Hout. split_and!; [done..|]. simpl.
    eexists. rewrite <- !app_assoc. split; [done|].
    rewrite !length_app. simpl. lia.
Qed.

End console.

(** X13. The two printing functions only add to the output: three
    texts per department for [print_teams] and four per department for
    [print_report], after what was there; the lines still to be typed
    and the files written are left as they were. *)
Theorem printing_frame (set_list : gset string → list string)
    (float_str : pyfloat → string)
    (data : dict (gset string)) (report : dict department_report) (c : console) :
  (stdin (print_teams set_list data c) = stdin c ∧
   written (print_teams set_list data c) = written c ∧
   ∃ texts, stdout (print_teams set_list data c) = stdout c ++ texts ∧
            length texts = 3 * length data) ∧
  (stdin (print_report float_str report c) = stdin c ∧
   written (print_report float_str report c) = written c ∧
   ∃ texts, stdout (print_report float_str report c) = stdout c ++ texts ∧
            length texts = 4 * length report).
Proof. split; [apply print_teams_frame|apply print_report_frame]. Qed.

(** X14. A selection that is a number other than 1, 2 and 3 ends [main]
    with [KeyError], and a selection that [int] rejects ends it with
    that [ValueError]; in both cases the two prompts were written, no
    file was read or written, and the lines after the selection are
    still to be typed. *)
Theorem main_bad_selection (set_list : gset string → list string)
    (float_str : pyfloat → string) (fs : filesystem) (c : console)
    (answer choice : string) (rest : list string) :
  stdin c = answer :: choice :: rest →
  let c' := Console rest (stdout c ++ ["Введите имя файла: "] ++ [menu]) (written c) in
  (∀ mode, int_literal choice = Some mode →
           mode ≠ 1%Z → mode ≠ 2%Z → mode ≠ 3%Z →
           main set_list float_str fs c = (Uncaught (KeyError "Некорректный ввод."), c')) ∧
  (int_literal choice = None →
   main set_list float_str fs c = (Uncaught (ValueError (InvalidLiteral choice)), c')).
Proof.
  intros Hin c'. unfold main, input, int. simpl. rewrite Hin. simpl.
  rewrite <- app_assoc. split.
  - intros mode -> H1 H2 H3.
    by rewrite (proj2 (Z.eqb_neq mode 1)), (proj2 (Z.eqb_neq mode 2)),
      (proj2 (Z.eqb_neq mode 3)).
  - by intros ->.
Qed.

Lemma main_bad_selection_witness :
  let c := Console ["staff"; "7"; "later"] [] [] in
  let c' := Console ["later"] (stdout c ++ ["Введите имя файла: "] ++ [menu]) (written c) in
  (∀ mode, int_literal "7" = Some mode →
           mode ≠ 1%Z → mode ≠ 2%Z → mode ≠ 3%Z →
           main elements (λ _, "") example_fs c =
             (Uncaught (KeyError "Некорректный ввод."), c')) ∧
  (int_literal "7" = None →
   main elements (λ _, "") example_fs c =
     (Uncaught (ValueError (InvalidLiteral "7")), c')).
Proof.
  apply (main_bad_selection elements (λ _, "") example_fs
           (Console ["staff"; "7"; "later"] [] []) "staff" "7" ["later"]).
  reflexivity.
Defined.

(** X15. When the loader of the selected view raises, [main] ends with
    that exception: only the two prompts were written, no file was
    written, and with selection 3 the name of the output file was not
    asked for. *)
Theorem main_loader_raises (set_list : gset string → list string)
    (float_str : pyfloat → string) (fs : filesystem) (c : console)
    (answer choice : string) (rest : list string) (err : exn) :
  stdin c = answer :: choice :: rest →
  let c' := Console rest (stdout c ++ ["Введите имя файла: "] ++ [menu]) (written c) in
  (int_literal choice = Some 1%Z → get_teams fs (strip answer) = Raise err →
   main set_list float_str fs c = (Uncaught err, c')) ∧
  (int_literal choice = Some 2%Z → get_reports fs (strip answer) = Raise err →
   main set_list float_str fs c = (Uncaught err, c')) ∧
  (int_literal choice = Some 3%Z → get_reports fs (strip answer) = Raise err →
   main set_list float_str fs c = (Uncaught err, c')).
Proof.
  intros Hin c'. unfold main, input, int. simpl. rewrite Hin. simpl.
  rewrite <- app_assoc. split_and!; intros -> ->; done.
Qed.

Lemma main_loader_raises_witness :
  let c := Console [" absent "; "3"; "out"] [] [] in
  let c' := Console ["out"] (stdout c ++ ["Введите имя файла: "] ++ [menu]) (written c) in
  let err := FileNotFoundError (not_found_message "absent.csv") in
  (int_literal "3" = Some 1%Z → get_teams example_fs (strip " absent ") = Raise err →
   main elements (λ _, "") example_fs c = (Uncaught err, c')) ∧
  (int_literal "3" = Some 2%Z → get_reports example_fs (strip " absent ") = Raise err →
   main elements (λ _, "") example_fs c = (Uncaught err, c')) ∧
  (int_literal "3" = Some 3%Z → get_reports example_fs (strip " absent ") = Raise err →
   main elements (λ _, "") example_fs c = (Uncaught err, c')).
Proof.
  apply (main_loader_raises elements (λ _, "") example_fs
           (Console [" absent "; "3"; "out"] [] []) " absent " "3" ["out"]).
  reflexivity.
Defined.

(** X16. [main] writes at most one file: either the files are as they
    were, or [main] returned after selection 3, the report of the named
    file was computed, and the one file added is what
    [make_report_csv] writes for that report under the name typed
    third. *)
Theorem main_writes (set_list : gset string → list string)
    (float_str : pyfloat → string) (fs : filesystem) (c : console) :
  written (main set_list float_str fs c).2 = written c ∨
  ∃ answer choice name rest report,
    stdin c = answer :: choice :: name :: rest ∧
    int_literal choice = Some 3%Z ∧
    get_reports fs (strip answer) = Ok report ∧
    main set_list float_str fs c =
      (Returned,
       Console rest
         (stdout c ++ ["Введите имя файла: "] ++ [menu]
                   ++ ["Введите имя выходного файла: "])
         (written c ++ [make_report_csv report name])).
Proof.
  unfold main, input, int. simpl.
  destruct (stdin c) as [|answer [|choice rest]] eqn:Hin; simpl; [by left..|].
  destruct (int_literal choice) as [mode|] eqn:Hmode; simpl; [|by left].
  destruct (Z.eqb_spec mode 1) as [->|H1].
  { destruct (get_teams fs (strip answer)) as [teams|e]; simpl; [|by left].
    left. by destruct (print_teams_frame set_list teams
                         (Console rest ((stdout c ++ ["Введите имя файла: "]) ++ [menu])
                                  (written c))) as (_ & -> & _). }
  destruct (Z.eqb_spec mode 2) as [->|H2].
  { destruct (get_reports fs (strip answer)) as [report|e]; simpl; [|by left].
    left. by destruct (print_report_frame float_str report
                         (Console rest ((stdout c ++ ["Введите имя файла: "]) ++ [menu])
                                  (written c))) as (_ & -> & _). }
  destruct (Z.eqb_spec mode 3) as [->|H3]; [|by left].
  destruct (get_reports fs (strip answer)) as [report|e] eqn:Hreport; simpl; [|by left].
  unfold make_report_csv_on, input. simpl.
  destruct rest as [|name rest]; simpl; [by left|].
  right. exists answer, choice, name, rest, report.
  split_and!; [done..|]. by rewrite <- !app_assoc.
Qed.
